(** * Student score dashboard: the data pipeline of [main.py]

    The script reads a worksheet, builds a table, coerces the score columns
    to numbers, averages them and reshapes one student's row against the
    averages.  The development below embeds that pipeline, from [load_data]
    to [plot_df], and proves the properties its specification states.

    Conventions of the embedding.
    - A Python [str] is the [string] of its UTF-8 bytes; a lone surrogate
      code point, which has no UTF-8 encoding, is the three bytes that
      [encode('utf-8', 'surrogatepass')] would give it.
    - A table is kept row by row under its column labels, in the order of
      the sheet.
    - A score is an exact rational: the rounding of float64 is outside the
      model, and so are [inf] and [-inf].
    - An exception is a value of [exn]; code that may raise returns a
      [result].

    What the libraries do is taken from their documented behaviour: gspread
    returns the values of a sheet as lists of [str], an empty cell as the
    empty text; pandas (1.x and 2.x) builds object columns from such lists,
    treats only [None] and NaN as missing, and returns a sub-table, not a
    Series, for a label that several columns carry; Streamlit's
    [cache_data] answers a call from its store for [ttl] seconds. *)

From Stdlib Require Import Ascii String QArith Lqa.
From stdpp Require Import base option list strings gmap.


(** ** Exceptions *)

Inductive exn : Set :=
| RemoteError (msg : string)   (* raised by the spreadsheet client *)
| IndexError
| ValueError
| KeyError (label : string)
| TypeError
| AttributeError.

Inductive result (A : Type) : Type :=
| Ok (a : A)
| Raise (e : exn).

Arguments Ok {A} a.
Arguments Raise {A} e.

Global Instance result_ret : MRet result := λ A a, Ok a.

Global Instance result_bind : MBind result := λ A B k r,
  match r with
  | Ok a => k a
  | Raise e => Raise e
  end.

(** [for x in xs: acc = body(acc, x)], stopping at the first exception. *)
Fixpoint for_each {A S : Type} (xs : list A) (body : S → A → result S) (s : S)
  : result S :=
  match xs with
  | [] => Ok s
  | x :: xs' => s' ← body s x; for_each xs' body s'
  end.

(** ** Cells, series and tables *)

(** What a cell of a table can hold: a text or [None] in an object column, a
    number or the float NaN, which pandas uses as its missing marker, in a
    numeric one. *)
Inductive cell : Set :=
| Str (s : string)
| PyNone
| Num (q : Q)
| NaN.

Global Instance cell_inhabited : Inhabited cell := populate NaN.

Definition Series : Type := list cell.

Record DataFrame : Type := mkDF {
  columns : list string;
  rows : list (list cell)
}.

(** [pd.DataFrame()] *)
Definition empty_frame : DataFrame := mkDF [] [].

(** [df.empty]: some axis has length 0. *)
Definition df_empty (df : DataFrame) : bool :=
  match columns df, rows df with
  | [], _ | _, [] => true
  | _, _ => false
  end.

Definition is_text (c : cell) : Prop := ∃ s, c = Str s.

(** [pd.notna] *)
Definition notna (c : cell) : bool :=
  match c with
  | PyNone | NaN => false
  | Str _ | Num _ => true
  end.

(** The positions of the columns that carry the label [col]. *)
Fixpoint positions_from (i : nat) (col : string) (names : list string) : list nat :=
  match names with
  | [] => []
  | n :: names' =>
      if decide (n = col) then i :: positions_from (S i) col names'
      else positions_from (S i) col names'
  end.

Definition positions (col : string) (names : list string) : list nat :=
  positions_from 0 col names.

(** The position of the only column labelled [col].  Where the label is
    absent [df[col]] raises KeyError; where several columns carry it,
    [df[col]] is a sub-table and not a Series, and the use the script makes
    of it ([.dtype], [pd.to_numeric] or [.tolist]) raises [dup]. *)
Definition series_position (names : list string) (col : string) (dup : exn) : result nat :=
  match positions col names with
  | [] => Raise (KeyError col)
  | [i] => Ok i
  | _ => Raise dup
  end.

(** The positions of a list of labels, each of them on one column. *)
Definition located (names cols : list string) (idx : list nat) : Prop :=
  Forall2 (λ col i, positions col names = [i]) cols idx.

(** The first position of a label, 0 were there none. *)
Definition position (names : list string) (col : string) : nat :=
  default 0 (head (positions col names)).

(** [df[col]] used as a Series. *)
Definition getitem (df : DataFrame) (col : string) (dup : exn) : result Series :=
  i ← series_position (columns df) col dup;
  Ok (map (λ r : list cell, r !!! i) (rows df)).

(** [df[col] = s], for a Series [s] that was computed from [df[col]]. *)
Definition setitem (df : DataFrame) (col : string) (s : Series) : result DataFrame :=
  i ← series_position (columns df) col TypeError;
  Ok (mkDF (columns df)
        (zip_with (λ (r : list cell) (v : cell), <[i:=v]> r) (rows df) s)).

(** ** What the page shows *)

Inductive widget : Type :=
| st_error (msg : string)
| st_error_load (worksheet_name : string) (e : exn)
      (* the loader's message, which quotes the sheet and the exception *)
| st_info (msg : string)
| st_sidebar_header (msg : string)
| st_sidebar_warning (msg : string)
| st_sidebar_radio (options : list cell)
| st_header (who : cell)
      (* the selected student, then the fixed title *)
| st_write (worksheet_name : string) (who : cell)
      (* the line over the preview, which quotes the sheet and the student *)
| st_subheader (msg : string)
| st_dataframe (df : DataFrame)
| st_plotly_chart (plot : list (string * cell * cell))
| st_detail_table (plot : list (string * cell * cell)).

(** ** The Data Loader: [load_data] *)

(** What [worksheet.get_all_values()] returns. *)
Definition sheet : Type := list (list string).

(** A cell of the object columns that [pd.DataFrame] builds from lists of
    [str]: a text, or [None] where the row was too short. *)
Definition object : Type := option string.

(** [pd.DataFrame(body, columns=header)] for a list of lists: the rows are
    padded with [None] to the width of the longest one, and that width has to
    be the number of labels.  With no row at all the table is empty under the
    given labels. *)
Definition pad_row (w : nat) (r : list string) : list object :=
  map Some r ++ replicate (w - length r) None.

Definition frame_of_lists (body : sheet) (header : list string)
  : result (list (list object)) :=
  match body with
  | [] => Ok []
  | _ => let w := max_list (map length body) in
         if decide (w = length header) then Ok (map (pad_row w) body)
         else Raise ValueError
  end.

(** [df.dropna(how="all")]: a row goes when every cell of it is missing. *)
Definition dropna_all (body : list (list object)) : list (list object) :=
  List.filter (existsb (λ c : object, bool_decide (is_Some c))) body.

(** [.astype(str)] on an object column is [str(x)] cell by cell, so [None]
    becomes the text [None]. *)
Definition astype_str (c : object) : string :=
  match c with
  | Some s => s
  | None => "None"
  end.

(** [.str.encode('utf-8', errors='ignore').str.decode('utf-8')]: the one
    thing UTF-8 cannot encode is a lone surrogate, U+D800 to U+DFFF, which is
    left out; decoding what remains gives the other code points back.  On the
    bytes, a surrogate is [ED] followed by a byte from [A0] to [BF] and a
    third one. *)
Definition surrogate_lead (a b : ascii) : bool :=
  (N_of_ascii a =? 237)%N && (160 <=? N_of_ascii b)%N && (N_of_ascii b <=? 191)%N.

Fixpoint utf8_ignore (s : string) : string :=
  match s with
  | EmptyString => EmptyString
  | String a tl =>
      match tl with
      | String b (String _ rest) =>
          if surrogate_lead a b then utf8_ignore rest
          else String a (utf8_ignore tl)
      | _ => String a (utf8_ignore tl)
      end
  end.

Definition sanitize (c : object) : object := Some (utf8_ignore (astype_str c)).

(** An object cell as a cell of the returned table. *)
Definition of_object (c : object) : cell :=
  match c with
  | Some s => Str s
  | None => PyNone
  end.

(** The loop over [df.columns].  [df[col].dtype] raises AttributeError when
    [col] labels several columns.  The columns were built from [str] and
    [None], so their dtype is [object] and the branch is taken for each. *)
Definition sanitize_column (names : list string) (body : list (list object))
    (col : string) : result (list (list object)) :=
  i ← series_position names col AttributeError;
  Ok (map (alter sanitize i) body).

(** The body of the [try] block. *)
Definition load_data_try (fetched : result sheet) : result DataFrame :=
  data ← fetched;
  header ← match data with [] => Raise IndexError | h :: _ => Ok h end;
  body ← frame_of_lists (tail data) header;
  body ← for_each header (sanitize_column header) (dropna_all body);
  Ok (mkDF header (map (map of_object) body)).

(** [load_data(worksheet_name)], with the global [spreadsheet] as a
    function from a worksheet title to what fetching its values gives.  The
    result is what the call shows on the page and what it returns. *)
Definition load_data (spreadsheet : string → result sheet) (worksheet_name : string)
  : list widget * DataFrame :=
  match load_data_try (spreadsheet worksheet_name) with
  | Ok df => ([], df)
  | Raise e => ([st_error_load worksheet_name e], empty_frame)
  end.

(** ** The cache in front of the loader: [@st.cache_data(ttl=300)]

    An entry is kept under the argument of the call, with the time it was
    stored at; it answers the calls of the next 300 seconds, and what the
    call had shown is shown again. *)

Definition ttl : nat := 300.

Record entry : Type := mkEntry {
  stored_at : nat;
  cached : list widget * DataFrame
}.

Definition load_data_cached (spreadsheet : string → result sheet) (now : nat)
    (cache : gmap string entry) (worksheet_name : string)
  : (list widget * DataFrame) * gmap string entry :=
  let miss :=
    let v := load_data spreadsheet worksheet_name in
    (v, <[worksheet_name := mkEntry now v]> cache) in
  match cache !! worksheet_name with
  | Some e => if decide (now < stored_at e + ttl) then (cached e, cache) else miss
  | None => miss
  end.



(** ** Identity columns and score columns *)

Definition expected_columns : list string := ["번호"; "이름"; "성별"].

(** [[col for col in df.columns if col not in expected_columns]] *)
Definition score_columns (df : DataFrame) : list string :=
  filter (λ col, col ∉ expected_columns) (columns df).

(** [all(col in df.columns for col in expected_columns)] *)
Definition has_expected (df : DataFrame) : bool :=
  forallb (λ col, bool_decide (col ∈ columns df)) expected_columns.

(** The [repr] of a list of texts, as an f-string prints it; right for texts
    with no quote, backslash or control character in them, as the three
    labels are. *)
Definition repr_str (s : string) : string := "'" +:+ s +:+ "'".

Fixpoint join (sep : string) (l : list string) : string :=
  match l with
  | [] => ""
  | [s] => s
  | s :: l' => s +:+ sep +:+ join sep l'
  end.

Definition repr_list (l : list string) : string :=
  "[" +:+ join ", " (map repr_str l) +:+ "]".

Definition msg_no_data : string :=
  "선택된 시트에서 데이터를 찾을 수 없습니다. 시트 내용을 확인해주세요.".

Definition msg_missing_columns : string :=
  "데이터에 예상된 열 " +:+ repr_list expected_columns
  +:+ "이(가) 없습니다. 구글 시트의 열 구조를 확인해주세요.".

Definition msg_no_students : string :=
  "학생 이름을 찾을 수 없습니다. '이름' 컬럼을 확인해주세요.".

Definition msg_pick_student : string :=
  "왼쪽 사이드바에서 학생을 선택하여 대시보드를 확인하세요.".


(** ** Selecting columns, averaging, joining *)

(** [df[labels]] for a list of labels: the columns so labelled, label after
    label; KeyError at the first label that no column carries. *)
Fixpoint select_positions (names labels : list string) : result (list (string * nat)) :=
  match labels with
  | [] => Ok []
  | l :: labels' =>
      match positions l names with
      | [] => Raise (KeyError l)
      | ps => rest ← select_positions names labels';
              Ok (map (pair l) ps ++ rest)
      end
  end.

Definition getitem_list (df : DataFrame) (labels : list string) : result DataFrame :=
  sel ← select_positions (columns df) labels;
  Ok (mkDF (map fst sel)
        (map (λ r : list cell, map (λ p : string * nat, r !!! p.2) sel) (rows df))).

(** [Series.mean()], which skips the missing values: the sum runs over the
    values with 0 in the place of each NaN, the count over the cells that
    are not NaN, and with a count of 0 the mean is NaN.  A column that holds
    a text is not averaged (TypeError). *)
Definition is_float (c : cell) : bool :=
  match c with
  | Num _ | NaN => true
  | Str _ | PyNone => false
  end.

Definition fillna0 (c : cell) : Q :=
  match c with
  | Num q => q
  | _ => 0%Q
  end.

Definition total (s : Series) : Q := fold_left Qplus (map fillna0 s) 0%Q.

Definition count (s : Series) : nat := length (List.filter notna s).

Definition mean_of (s : Series) : cell :=
  match count s with
  | O => NaN
  | S _ => Num (total s / inject_Z (Z.of_nat (count s)))
  end.

Definition nanmean (s : Series) : result cell :=
  if forallb is_float s then Ok (mean_of s) else Raise TypeError.



(** [df.mean().reset_index()]: a row (label, mean) for each column. *)
Fixpoint means_from (i : nat) (names : list string) (body : list (list cell))
  : result (list (string * cell)) :=
  match names with
  | [] => Ok []
  | n :: names' =>
      m ← nanmean (map (λ r : list cell, r !!! i) body);
      rest ← means_from (S i) names' body;
      Ok ((n, m) :: rest)
  end.

Definition frame_mean (df : DataFrame) : result (list (string * cell)) :=
  means_from 0 (columns df) (rows df).

(** [pd.merge(left, right, on="단원", how="left")] for two tables of two
    columns each: the rows of [left] in their order, each with the value of
    every row of [right] under the same key, or with NaN where there is
    none. *)
Definition merge_left (left right : list (string * cell)) : list (string * cell * cell) :=
  flat_map (λ l : string * cell,
      match List.filter (λ r : string * cell, bool_decide (r.1 = l.1)) right with
      | [] => [(l.1, l.2, NaN)]
      | matches => map (λ r : string * cell, (l.1, l.2, r.2)) matches
      end) left.

(** [==] between a cell of a Series and a selected value, and the truth
    value that [if selected_student:] takes. *)
Definition cell_eqb (c sel : cell) : bool :=
  match c, sel with
  | Str a, Str b => bool_decide (a = b)
  | Num a, Num b => Qeq_bool a b
  | _, _ => false
  end.

Definition truthy (c : cell) : bool :=
  match c with
  | Str s => negb (bool_decide (s = ""))
  | Num q => negb (Qeq_bool q 0)
  | NaN => true
  | PyNone => false
  end.

(** ** The Aggregator: [df[score_columns].mean().reset_index()] *)

Definition overall_averages (df : DataFrame) (cols : list string)
  : result (list (string * cell)) :=
  sub ← getitem_list df cols;
  frame_mean sub.

(** ** The student selector *)

(** [[name for name in df["이름"].tolist() if pd.notna(name)]] *)
Definition student_names (df : DataFrame) : result (list cell) :=
  names ← getitem df "이름" AttributeError;
  Ok (List.filter notna names).

(** [st.sidebar.radio(label, options)]: the option the user picked, the
    first one before any click. *)
Definition radio (options : list cell) (pick : nat) : cell :=
  default (default PyNone (head options)) (options !! pick).

(** ** The Per-Student Reshaper *)

(** [df[df["이름"] == selected_student]].  (With several columns labelled
    이름 the comparison gives a table-wide mask; [load_data] returns no
    such table, and here the case raises.) *)
Definition student_df (df : DataFrame) (selected : cell) : result DataFrame :=
  names ← getitem df "이름" ValueError;
  Ok (mkDF (columns df)
        (map fst (List.filter (λ rn : list cell * cell, cell_eqb rn.2 selected)
                    (zip (rows df) names)))).

(** [student_df.iloc[0]] *)
Definition iloc0 (df : DataFrame) : result (list cell) :=
  match rows df with
  | [] => Raise IndexError
  | r :: _ => Ok r
  end.

(** [pd.DataFrame({"단원": score_columns,
                   "점수": [student_data[col] for col in score_columns]})] *)
Fixpoint student_scores (names : list string) (student_data : list cell)
    (cols : list string) : result (list (string * cell)) :=
  match cols with
  | [] => Ok []
  | col :: cols' =>
      i ← series_position names col TypeError;
      rest ← student_scores names student_data cols';
      Ok ((col, student_data !!! i) :: rest)
  end.

(** Lines 137 to 148: from the normalized table, the averages and the
    selected student to [plot_df], with the columns 단원, 전체 평균 and
    내 점수. *)
Definition plot_df (df : DataFrame) (averages : list (string * cell))
    (cols : list string) (selected : cell) : result (list (string * cell * cell)) :=
  sdf ← student_df df selected;
  student_data ← iloc0 sdf;
  scores ← student_scores (columns sdf) student_data cols;
  Ok (merge_left averages scores).

(** ** The script, from [df = load_data(selected_worksheet_name)] on

    A run ends at [st.stop()], at the last line, or on an exception that
    nothing catches; the first two keep the table that the variable [df]
    holds at that point.  The page is the list of what was shown, in order.
    The title, the style sheets, the refresh button and the worksheet
    selector, which come before and depend on no table, are left out. *)

Inductive ending : Type :=
| Stopped (df : DataFrame)
| Finished (df : DataFrame)
| Crashed (e : exn).

Record page : Type := mkPage {
  shown : list widget;
  ended : ending
}.

Section Pipeline.

(** What [pd.to_numeric(..., errors="coerce")] reads in a text: the number,
    or nothing where the text does not parse (or spells NaN). *)
Variable to_float : string → option Q.

(** ** The Score Normalizer *)

Definition to_numeric_cell (c : cell) : cell :=
  match c with
  | Str s => match to_float s with
             | Some q => Num q
             | None => NaN
             end
  | PyNone => NaN
  | Num q => Num q
  | NaN => NaN
  end.

Definition to_numeric (s : Series) : Series := map to_numeric_cell s.

(** [df[col] = pd.to_numeric(df[col], errors="coerce")]; [pd.to_numeric]
    raises TypeError on a sub-table. *)
Definition coerce_column (df : DataFrame) (col : string) : result DataFrame :=
  s ← getitem df col TypeError;
  setitem df col (to_numeric s).

Definition normalize (df : DataFrame) (cols : list string) : result DataFrame :=
  for_each cols coerce_column df.


(** What the loop of [normalize] does to one row, given the positions of
    the labels. *)
Definition coerce_row (idx : list nat) (r : list cell) : list cell :=
  foldl (λ r i, alter to_numeric_cell i r) r idx.

(** ** The script *)

Definition script (selected_worksheet_name : string)
    (loaded : list widget * DataFrame) (pick : nat) : page :=
  let out := loaded.1 in
  let df := loaded.2 in
  if df_empty df then mkPage (out ++ [st_info msg_no_data]) (Stopped df)
  else
    let score_cols := score_columns df in
    if negb (has_expected df) then
      mkPage (out ++ [st_error msg_missing_columns; st_dataframe df]) (Stopped df)
    else
      match normalize df score_cols with
      | Raise e => mkPage out (Crashed e)
      | Ok df =>
      match overall_averages df score_cols with
      | Raise e => mkPage out (Crashed e)
      | Ok averages =>
      let out := out ++ [st_sidebar_header "학생 선택"] in
      match student_names df with
      | Raise e => mkPage out (Crashed e)
      | Ok [] => mkPage (out ++ [st_sidebar_warning msg_no_students]) (Stopped df)
      | Ok names =>
      let out := out ++ [st_sidebar_radio names] in
      let selected_student := radio names pick in
      if truthy selected_student then
        let out := out ++ [st_header selected_student] in
        match student_df df selected_student with
        | Raise e => mkPage out (Crashed e)
        | Ok sdf =>
        let out := out ++ [st_write selected_worksheet_name selected_student] in
        match getitem_list sdf (expected_columns ++ score_cols) with
        | Raise e => mkPage out (Crashed e)
        | Ok preview =>
        let out := out ++ [st_dataframe preview] in
        match plot_df df averages score_cols selected_student with
        | Raise e => mkPage out (Crashed e)
        | Ok plot =>
            mkPage (out ++ [st_plotly_chart plot; st_subheader "세부 점수";
                            st_detail_table plot])
                   (Finished df)
        end end end
      else mkPage (out ++ [st_info msg_pick_student]) (Finished df)
      end end end.

(** The whole run: the cached call, then the script. *)
Definition app (spreadsheet : string → result sheet) (now : nat)
    (cache : gmap string entry) (selected_worksheet_name : string) (pick : nat)
  : page * gmap string entry :=
  let r := load_data_cached spreadsheet now cache selected_worksheet_name in
  (script selected_worksheet_name r.1 pick, r.2).

End Pipeline.

(** ** A reader and sheets for the examples *)

(** A reader for the texts made of decimal digits.  On such a text, and on
    the other texts of the sheets below, which hold no number, it reads what
    [pd.to_numeric] reads. *)
Definition digit_value (a : ascii) : option Z :=
  let n := Z.of_N (N_of_ascii a) in
  if ((48 <=? n) && (n <=? 57))%Z then Some (n - 48)%Z else None.

Fixpoint read_digits_from (acc : Z) (s : string) : option Z :=
  match s with
  | EmptyString => Some acc
  | String a s' => d ← digit_value a; read_digits_from (10 * acc + d)%Z s'
  end.

Definition read_digits (s : string) : option Q :=
  match s with
  | EmptyString => None
  | _ => inject_Z <$> read_digits_from 0 s
  end.

(** A class of three, with two rows under the same name and a second unit
    in which nobody has a score. *)
Definition class_sheet : sheet :=
  [["번호"; "이름"; "성별"; "단원1"; "단원2"];
   ["1"; "철수"; "남"; "90"; "x"];
   ["2"; "영희"; "여"; "70"; ""];
   ["3"; "철수"; "남"; "50"; "-"]].

Definition class_table : DataFrame :=
  (load_data (λ _, Ok class_sheet) "1학기").2.

Definition class_normalized : DataFrame :=
  mkDF ["번호"; "이름"; "성별"; "단원1"; "단원2"]
    [[Str "1"; Str "철수"; Str "남"; Num 90; NaN];
     [Str "2"; Str "영희"; Str "여"; Num 70; NaN];
     [Str "3"; Str "철수"; Str "남"; Num 50; NaN]].

(** The sheet of the specification's example, with an empty row between the
    two students. *)
Definition blank_row_sheet : sheet :=
  [["번호"; "이름"; "성별"; "단원1"];
   ["1"; "철수"; "남"; "90"];
   [""; ""; ""; ""];
   ["2"; "영희"; "여"; "x"]].



(** * Further definitions

    What follows is used by the second part of the properties: predicates
    and closed forms to state them with, and the head of the script. *)

(** ** Texts and loaded rows *)

(** Whether a text holds a lone surrogate. *)
Fixpoint has_surrogate (s : string) : bool :=
  match s with
  | EmptyString => false
  | String a tl =>
      match tl with
      | String b (String _ _) => surrogate_lead a b
      | _ => false
      end || has_surrogate tl
  end.

Definition nonempty_row (r : list string) : bool :=
  match r with
  | [] => false
  | _ :: _ => true
  end.

(** A row of the sheet as the loader returns it under [n] labels. *)
Definition loaded_row (n : nat) (r : list string) : list cell :=
  map (λ s, Str (utf8_ignore s)) r ++ replicate (n - length r) (Str "None").

(** The header row of a sheet is usable: the rows under it, if any, are as
    wide as it at their widest. *)
Definition fits (header : list string) (body : sheet) : Prop :=
  body = [] ∨ max_list (map length body) = length header.

(** ** The head of the script: connection, worksheet list, refresh

    Lines 14 to 51 and 86 to 98.  The [try] block of the connection is a run
    of library calls; what it leaves is the spreadsheet, or the exception.
    Of the spreadsheet the script uses two things: the list of its
    worksheets, of which it reads the titles, and the values of a worksheet
    given by title. *)

Record Spreadsheet : Type := mkSpreadsheet {
  worksheets : result (list string);
  get_all_values : string → result sheet
}.

(** What the head of the page shows; the rest of the page is made of the
    widgets of [script]. *)
Inductive element : Type :=
| el_connect_error (e : exn)
| el_connect_info
| el_worksheets_error (e : exn)
| el_no_worksheets
| el_selectbox (options : list string)
| el_refresh_button
| el_widget (w : widget).

(** [get_worksheet_names()]: what it shows and the titles it returns. *)
Definition get_worksheet_names (spreadsheet : Spreadsheet) : list element * list string :=
  match worksheets spreadsheet with
  | Ok titles => ([], titles)
  | Raise e => ([el_worksheets_error e], [])
  end.

(** The two stores of [st.cache_data]: the one of [get_worksheet_names],
    which takes no argument, and the one of [load_data]. *)
Record caches : Type := mkCaches {
  names_entry : option (nat * (list element * list string));
  data_entries : gmap string entry
}.

(** [st.cache_data.clear()] empties both. *)
Definition no_caches : caches := mkCaches None ∅.

Definition get_worksheet_names_cached (spreadsheet : Spreadsheet) (now : nat)
    (stored : option (nat * (list element * list string)))
  : (list element * list string) * option (nat * (list element * list string)) :=
  let miss := let v := get_worksheet_names spreadsheet in (v, Some (now, v)) in
  match stored with
  | Some (t, v) => if decide (now < t + ttl) then (v, stored) else miss
  | None => miss
  end.

(** [st.sidebar.selectbox(label, options)]: the option picked, the first one
    before any choice. *)
Definition selectbox (options : list string) (pick : nat) : string :=
  default (default "" (head options)) (options !! pick).

(** How a run ends: at a [st.stop()] of the head, or as [script] ends. *)
Inductive outcome : Type :=
| Halted
| Ran (e : ending).

Record top_page : Type := mkTop {
  elements : list element;
  outcome_of : outcome
}.

Section Main.

Variable to_float : string → option Q.

(** A run in which the refresh button is not pressed. *)
Definition run_once (connect : result Spreadsheet) (now : nat) (c : caches)
    (sheet_pick student_pick : nat) : top_page * caches :=
  match connect with
  | Raise e => (mkTop [el_connect_error e; el_connect_info] Halted, c)
  | Ok spreadsheet =>
      let listed := get_worksheet_names_cached spreadsheet now (names_entry c) in
      let WORKSHEET_NAMES := listed.1.2 in
      match WORKSHEET_NAMES with
      | [] => (mkTop (listed.1.1 ++ [el_no_worksheets]) Halted,
               mkCaches listed.2 (data_entries c))
      | _ :: _ =>
          let selected_worksheet_name := selectbox WORKSHEET_NAMES sheet_pick in
          let r := app to_float (get_all_values spreadsheet) now (data_entries c)
                     selected_worksheet_name student_pick in
          (mkTop (listed.1.1 ++ [el_selectbox WORKSHEET_NAMES; el_refresh_button]
                    ++ map el_widget (shown r.1))
                 (Ran (ended r.1)),
           mkCaches listed.2 r.2)
      end
  end.

(** Whether a run gets as far as [st.button]. *)
Definition button_reached (connect : result Spreadsheet) (now : nat) (c : caches)
  : bool :=
  match connect with
  | Raise _ => false
  | Ok spreadsheet =>
      match (get_worksheet_names_cached spreadsheet now (names_entry c)).1.2 with
      | [] => false
      | _ :: _ => true
      end
  end.

(** A run, with the button pressed or not: pressed, and reached, the caches
    are cleared and [st.rerun()] starts the script again. *)
Definition main (refresh : bool) (connect : result Spreadsheet) (now : nat)
    (c : caches) (sheet_pick student_pick : nat) : top_page * caches :=
  if refresh && button_reached connect now c
  then run_once connect now no_caches sheet_pick student_pick
  else run_once connect now c sheet_pick student_pick.

End Main.

(** ** More sheets for the examples *)

(** A sheet with a row that came as an empty list and a row that came
    short. *)
Definition ragged_sheet : sheet :=
  [["번호"; "이름"; "성별"; "단원1"];
   ["1"; "철수"; "남"; "90"];
   [];
   ["2"; "영희"]].



(** A spreadsheet whose worksheets cannot be listed, and one with two
    worksheets. *)
Definition unlisted_spreadsheet : Spreadsheet :=
  mkSpreadsheet (Raise (RemoteError "quota exceeded")) (λ _, Ok class_sheet).

Definition class_spreadsheet : Spreadsheet :=
  mkSpreadsheet (Ok ["1학기"; "2학기"]) (λ _, Ok class_sheet).

(** * Properties *)

(** ** Results *)

Lemma bind_Ok {A B} (r : result A) (k : A → result B) (b : B) :
  r ≫= k = Ok b ↔ ∃ a, r = Ok a ∧ k a = Ok b.
Proof.
  destruct r as [a|e]; simpl; split.
  - intros H. by exists a.
  - by intros (a' & [= ->] & H).
  - intros [=].
  - by intros (a' & [=] & _).
Qed.

(** ** Labels and positions *)

Lemma elem_of_positions_from (k : nat) col names (i : nat) :
  i ∈ positions_from k col names ↔ k ≤ i ∧ names !! (i - k) = Some col.
Proof.
  revert k. induction names as [|n names IH]; intros k; simpl.
  - rewrite elem_of_nil. naive_solver.
  - destruct (decide (n = col)) as [Hn|Hn]; [rewrite elem_of_cons|];
      rewrite IH; split.
    + intros [->|[Hk Hl]].
      * split; [lia|]. by rewrite Nat.sub_diag, Hn.
      * split; [lia|]. by replace (i - k) with (S (i - S k)) by lia.
    + intros [Hk Hl]. destruct (decide (i = k)) as [->|Hne]; [by left|right].
      split; [lia|]. by replace (i - k) with (S (i - S k)) in Hl by lia.
    + intros [Hk Hl]. split; [lia|].
      by replace (i - k) with (S (i - S k)) by lia.
    + intros [Hk Hl]. destruct (decide (i = k)) as [->|Hne].
      * rewrite Nat.sub_diag in Hl. simpl in Hl. congruence.
      * split; [lia|]. by replace (i - k) with (S (i - S k)) in Hl by lia.
Qed.

Lemma elem_of_positions col names i :
  i ∈ positions col names ↔ names !! i = Some col.
Proof.
  unfold positions. rewrite elem_of_positions_from, Nat.sub_0_r.
  split; [by intros [_ ?]|]. split; [lia|done].
Qed.

(** A label with one position is at that position and nowhere else. *)
Lemma positions_singleton col names i :
  positions col names = [i] →
  names !! i = Some col ∧ ∀ j, names !! j = Some col → j = i.
Proof.
  intros H. split.
  - apply elem_of_positions. rewrite H. by left.
  - intros j Hj. apply elem_of_positions in Hj. rewrite H in Hj.
    by apply list_elem_of_singleton in Hj.
Qed.

Lemma series_position_Ok names col dup i :
  series_position names col dup = Ok i ↔ positions col names = [i].
Proof.
  unfold series_position.
  destruct (positions col names) as [|j [|j' l]]; naive_solver.
Qed.

Lemma located_all names idx :
  located names names idx → idx = seq 0 (length names) ∧ NoDup names.
Proof.
  intros H. split.
  - apply list_eq. intros j.
    destruct (names !! j) as [col|] eqn:Hj.
    + destruct (Forall2_lookup_l _ _ _ _ _ H Hj) as (i & Hi & Hp).
      apply positions_singleton in Hp as [_ Hu].
      rewrite Hi, (Hu j Hj).
      symmetry. apply lookup_seq. split; [done|].
      rewrite <-(Hu j Hj). by apply lookup_lt_Some in Hj.
    + apply lookup_ge_None in Hj.
      rewrite lookup_seq_ge by done.
      apply lookup_ge_None. by rewrite <-(Forall2_length _ _ _ H).
  - apply NoDup_alt. intros j1 j2 col H1 H2.
    destruct (Forall2_lookup_l _ _ _ _ _ H H1) as (i & _ & Hp).
    apply positions_singleton in Hp as [_ Hu].
    by rewrite (Hu j1 H1), (Hu j2 H2).
Qed.

Lemma NoDup_located names : NoDup names → located names names (seq 0 (length names)).
Proof.
  intros Hnd. apply Forall2_same_length_lookup. split; [by rewrite length_seq|].
  intros j col i Hj Hi. apply lookup_seq in Hi as [-> _]. simpl.
  assert (Hin : j ∈ positions col names) by by apply elem_of_positions.
  assert (Hall : ∀ k, k ∈ positions col names → k = j).
  { intros k Hk%elem_of_positions. by eapply NoDup_lookup. }
  assert (Hsorted : ∀ k l, positions_from k col l = [] ∨
            ∃ h t, positions_from k col l = h :: t ∧ h ∉ t).
  { clear. intros k l. revert k. induction l as [|n l IH]; intros k; [by left|].
    simpl. case_decide; [|apply IH]. right. eexists _, _. split; [done|].
    intros Hk%elem_of_positions_from. lia. }
  unfold positions in *.
  destruct (Hsorted 0 names) as [E|(h & t & E & Hht)]; rewrite E in *.
  - by apply elem_of_nil in Hin.
  - assert (h = j) as -> by (apply Hall; by left).
    destruct t as [|h' t]; [done|].
    assert (h' = j) as -> by (apply Hall; right; by left).
    exfalso. apply Hht. by left.
Qed.

(** ** Running an update over a list of positions *)

Lemma lookup_foldl_alter {A} (f : A → A) (idx : list nat) (r : list A) (j : nat) :
  (∀ x, f (f x) = f x) ∨ NoDup idx →
  foldl (λ r i, alter f i r) r idx !! j =
    if decide (j ∈ idx) then f <$> r !! j else r !! j.
Proof.
  intros Hf. revert r. induction idx as [|i idx IH]; intros r; simpl.
  - done.
  - rewrite IH by (destruct Hf as [?|Hnd]; [by left|right; by inversion Hnd]).
    destruct (decide (j = i)) as [->|Hne].
    + rewrite list_lookup_alter_eq, (decide_True _ _ (list_elem_of_here _ _)).
      case_decide as Hin; [|done].
      destruct Hf as [Hf|Hnd]; [|by inversion Hnd].
      destruct (r !! i); simpl; by rewrite ?Hf.
    + rewrite list_lookup_alter_ne by done.
      repeat case_decide; try done; set_solver.
Qed.

Lemma foldl_alter_all {A} (f : A → A) (r : list A) :
  foldl (λ r i, alter f i r) r (seq 0 (length r)) = f <$> r.
Proof.
  apply list_eq. intros j.
  rewrite lookup_foldl_alter by (right; apply NoDup_seq).
  rewrite list_lookup_fmap. case_decide as Hj; [done|].
  rewrite elem_of_seq in Hj.
  rewrite (proj2 (lookup_ge_None r j)) by lia. done.
Qed.

Lemma insert_lookup_total_alter {A} `{!Inhabited A} (f : A → A) (i : nat) (r : list A) :
  <[i := f (r !!! i)]> r = alter f i r.
Proof.
  revert i. induction r as [|x r IH]; intros [|i]; simpl; try done.
  f_equal. apply IH.
Qed.

Lemma map_fmap {A B} (f : A → B) (l : list A) : map f l = f <$> l.
Proof. reflexivity. Qed.

Lemma zip_with_map_r {A B C} (f : A → B → C) (g : A → B) (l : list A) :
  zip_with f l (map g l) = map (λ x, f x (g x)) l.
Proof. induction l as [|x l IH]; simpl; [done|]. by rewrite IH. Qed.

(** ** The Data Loader *)

Lemma for_each_sanitize names cols body body' :
  for_each cols (sanitize_column names) body = Ok body' ↔
  ∃ idx, located names cols idx ∧
         body' = map (λ r, foldl (λ r i, alter sanitize i r) r idx) body.
Proof.
  revert body. induction cols as [|col cols IH]; intros body; simpl.
  - split.
    + intros [= <-]. exists []. split; [constructor|]. by rewrite map_id.
    + intros (idx & Hloc & ->). inversion Hloc. by rewrite map_id.
  - rewrite bind_Ok. unfold sanitize_column at 1. split.
    + intros (b1 & (i & Hi & [= <-])%bind_Ok & (idx & Hloc & ->)%IH).
      apply series_position_Ok in Hi.
      exists (i :: idx). split; [by constructor|]. by rewrite map_map.
    + intros (idx & Hloc & ->). inversion Hloc as [|? i ? idx' Hi Hloc']; subst.
      exists (map (alter sanitize i) body). split.
      * apply bind_Ok. exists i. by rewrite series_position_Ok.
      * apply IH. exists idx'. split; [done|]. by rewrite map_map.
Qed.

Lemma frame_of_lists_width body header padded :
  frame_of_lists body header = Ok padded →
  Forall (λ r, length r = length header) padded.
Proof.
  unfold frame_of_lists. destruct body as [|r0 body]; [by intros [= <-]|].
  set (w := max_list _). case_decide as Hw; [|done]. intros [= <-].
  apply Forall_forall. intros r' Hr'.
  change (r' ∈ pad_row w <$> r0 :: body) in Hr'.
  apply list_elem_of_fmap in Hr' as (r & -> & Hr). unfold pad_row.
  rewrite length_app, length_map, length_replicate, <-Hw.
  assert (length r ≤ w); [|lia].
  apply max_list_elem_of_le. unfold w. rewrite map_fmap.
  apply list_elem_of_fmap. by exists r.
Qed.

Lemma dropna_all_subset body r : r ∈ dropna_all body → r ∈ body.
Proof.
  unfold dropna_all. rewrite !list_elem_of_In, filter_In. by intros [? _].
Qed.

Lemma dropna_all_full_rows (n : nat) (body : sheet) :
  n ≠ 0 → Forall (λ r, length r = n) body →
  dropna_all (map (pad_row n) body) = map (map Some) body.
Proof.
  intros Hn. unfold dropna_all. induction 1 as [|r rs Hr _ IH]; [done|].
  rewrite !map_cons. unfold pad_row at 1. rewrite Hr, Nat.sub_diag. simpl.
  rewrite app_nil_r.
  replace (existsb _ (map Some r)) with true; [by rewrite IH|].
  destruct r as [|c r]; [|done]. simpl in Hr. congruence.
Qed.

(** On a sheet as gspread gives it, every row as wide as the header row,
    [dropna] removes nothing: no cell is [None]. *)
Lemma dropna_all_rectangular (header : list string) (body : sheet) padded :
  header ≠ [] →
  Forall (λ r, length r = length header) body →
  frame_of_lists body header = Ok padded →
  dropna_all padded = map (map Some) body.
Proof.
  intros Hh Hrect. unfold frame_of_lists.
  destruct body as [|r0 body]; [by intros [= <-]|].
  set (w := max_list _). case_decide as Hw; [|done]. intros [= <-].
  rewrite Hw. apply (dropna_all_full_rows (length header) (r0 :: body)); [|done].
  by destruct header.
Qed.

(** What the loader returns when nothing was raised: the labels are those of
    the first row, no label is used twice, and every cell is a text. *)
Lemma load_data_try_Ok fetched df :
  load_data_try fetched = Ok df →
  ∃ header body padded,
    fetched = Ok (header :: body) ∧
    frame_of_lists body header = Ok padded ∧
    NoDup header ∧
    df = mkDF header
           (map (map (λ c, Str (utf8_ignore (astype_str c)))) (dropna_all padded)).
Proof.
  unfold load_data_try. intros (data & -> & H)%bind_Ok.
  apply bind_Ok in H as (header & Hh & H).
  destruct data as [|h body]; [done|]. injection Hh as ->. simpl in H.
  apply bind_Ok in H as (padded & Hpad & H).
  apply bind_Ok in H as (body' & Hloop & [= <-]).
  apply for_each_sanitize in Hloop as (idx & Hloc & ->).
  apply located_all in Hloc as [-> Hnd].
  exists header, body, padded. repeat split; try done. f_equal.
  rewrite map_map. apply map_ext_in. intros r Hr.
  apply list_elem_of_In, dropna_all_subset in Hr.
  pose proof (frame_of_lists_width _ _ _ Hpad) as Hw.
  rewrite Forall_forall in Hw. rewrite <-(Hw r) by done.
  rewrite foldl_alter_all. change (sanitize <$> r) with (map sanitize r).
  rewrite map_map. by apply map_ext.
Qed.

(** A value of [load_data]: either the table the [try] block built, or the
    empty table together with the error line. *)
Lemma load_data_cases spreadsheet worksheet_name :
  (∃ df, load_data_try (spreadsheet worksheet_name) = Ok df ∧
         load_data spreadsheet worksheet_name = ([], df)) ∨
  (∃ e, load_data spreadsheet worksheet_name =
          ([st_error_load worksheet_name e], empty_frame)).
Proof.
  unfold load_data. destruct (load_data_try _) as [df|e]; [left|right]; eauto.
Qed.

Lemma load_data_shape spreadsheet worksheet_name :
  let df := (load_data spreadsheet worksheet_name).2 in
  NoDup (columns df) ∧
  Forall (λ r, length r = length (columns df) ∧ Forall is_text r) (rows df).
Proof.
  destruct (load_data_cases spreadsheet worksheet_name)
    as [(df & Htry & ->)|(e & ->)]; simpl.
  - apply load_data_try_Ok in Htry as (header & body & padded & _ & Hpad & Hnd & ->).
    simpl. split; [done|]. apply Forall_forall. intros r' Hr'.
    rewrite map_fmap in Hr'.
    apply list_elem_of_fmap in Hr' as (r & -> & Hr%dropna_all_subset).
    pose proof (frame_of_lists_width _ _ _ Hpad) as Hw.
    rewrite Forall_forall in Hw. split.
    + rewrite length_map. by apply Hw.
    + apply Forall_forall. intros c Hc. rewrite map_fmap in Hc.
      apply list_elem_of_fmap in Hc as (c0 & -> & _). by eexists.
  - split; constructor.
Qed.

(** ** The Score Normalizer *)

Section Normalizer.

Context (to_float : string → option Q).

Lemma to_numeric_cell_idemp c :
  to_numeric_cell to_float (to_numeric_cell to_float c) = to_numeric_cell to_float c.
Proof. destruct c as [s| | |]; simpl; try done. by destruct (to_float s). Qed.

Lemma to_numeric_cell_float c : is_float (to_numeric_cell to_float c) = true.
Proof. destruct c as [s| | |]; simpl; try done. by destruct (to_float s). Qed.

Lemma coerce_row_lookup idx r j :
  coerce_row to_float idx r !! j =
    if decide (j ∈ idx) then (to_numeric_cell to_float) <$> r !! j else r !! j.
Proof. apply lookup_foldl_alter. left. apply to_numeric_cell_idemp. Qed.

Lemma coerce_row_idemp idx r :
  coerce_row to_float idx (coerce_row to_float idx r) = coerce_row to_float idx r.
Proof.
  apply list_eq. intros j. rewrite !coerce_row_lookup.
  case_decide; [|done]. destruct (r !! j); simpl; [|done].
  by rewrite to_numeric_cell_idemp.
Qed.

Lemma coerce_column_unfold df col :
  coerce_column to_float df col =
    i ← series_position (columns df) col TypeError;
    Ok (mkDF (columns df) (map (alter (to_numeric_cell to_float) i) (rows df))).
Proof.
  unfold coerce_column, getitem, setitem.
  destruct (series_position (columns df) col TypeError) as [i|e] eqn:Hi; simpl; [|done].
  unfold to_numeric. rewrite map_map, zip_with_map_r.
  do 2 f_equal. apply map_ext. intros r. apply insert_lookup_total_alter.
Qed.

Lemma normalize_Ok df cols df' :
  normalize to_float df cols = Ok df' ↔
  ∃ idx, located (columns df) cols idx ∧
         df' = mkDF (columns df) (map (coerce_row to_float idx) (rows df)).
Proof.
  unfold normalize. revert df.
  induction cols as [|col cols IH]; intros df; simpl.
  - split.
    + intros [= <-]. exists []. split; [constructor|].
      destruct df. simpl. by rewrite map_id.
    + intros (idx & Hloc & ->). inversion Hloc. destruct df. simpl. by rewrite map_id.
  - rewrite bind_Ok. setoid_rewrite coerce_column_unfold. split.
    + intros (df1 & (i & Hi & [= <-])%bind_Ok & (idx & Hloc & ->)%IH).
      apply series_position_Ok in Hi. simpl in *.
      exists (i :: idx). split; [by constructor|]. by rewrite map_map.
    + intros (idx & Hloc & ->). inversion Hloc as [|? i ? idx' Hi Hloc']; subst.
      eexists. split.
      * apply bind_Ok. exists i. by rewrite series_position_Ok.
      * apply IH. exists idx'. split; [done|]. simpl. by rewrite map_map.
Qed.

Lemma normalize_columns df cols df' :
  normalize to_float df cols = Ok df' → columns df' = columns df.
Proof. by intros (idx & _ & ->)%normalize_Ok. Qed.

(** C5.  Normalizing a second time changes nothing: for every table and
    every list of columns, the normalizer run on its own result gives that
    result again, and where the first run raises there is no result to run
    it on. *)
Theorem normalize_idempotent (T : DataFrame) (C : list string) :
  (normalize to_float T C ≫= λ T', normalize to_float T' C) = normalize to_float T C.
Proof.
  destruct (normalize to_float T C) as [T'|e] eqn:H; simpl; [|done].
  apply normalize_Ok in H as (idx & Hloc & ->).
  apply normalize_Ok. exists idx. simpl. split; [done|].
  f_equal. rewrite map_map. apply map_ext. intros r.
  by rewrite coerce_row_idemp.
Qed.

End Normalizer.

(** ** Sums of rationals

    Equal sums are equal as fractions here, numerator and denominator, and
    not only as numbers: the order of the terms leaves both untouched. *)







(** ** The mean of a Series *)








Lemma mean_of_all_missing (s : Series) :
  Forall (λ c, notna c = false) s → mean_of s = NaN.
Proof.
  intros H. unfold mean_of, count.
  replace (List.filter notna s) with (@nil cell); [done|].
  induction H as [|c s Hc _ IH]; simpl; [done|]. by rewrite Hc.
Qed.

(** ** The Aggregator *)

Lemma located_position names cols idx :
  located names cols idx → idx = map (position names) cols.
Proof.
  induction 1 as [|col i cols idx Hi _ IH]; simpl; [done|].
  rewrite <-IH. unfold position. by rewrite Hi.
Qed.

Lemma located_elem names cols idx col :
  located names cols idx → col ∈ cols → positions col names = [position names col].
Proof.
  intros Hloc [k Hk]%list_elem_of_lookup.
  destruct (Forall2_lookup_l _ _ _ _ _ Hloc Hk) as (i & _ & Hi).
  unfold position. by rewrite Hi.
Qed.

Lemma select_positions_located names cols idx :
  located names cols idx → select_positions names cols = Ok (zip cols idx).
Proof.
  induction 1 as [|col i cols idx Hi _ IH]; simpl; [done|].
  by rewrite Hi, IH.
Qed.



Lemma means_from_select (body : list (list cell)) (pre sel : list (string * nat)) :
  Forall (λ p, forallb is_float (map (λ r : list cell, r !!! p.2) body) = true) sel →
  means_from (length pre) (map fst sel)
    (map (λ r : list cell, map (λ p : string * nat, r !!! p.2) (pre ++ sel)) body)
  = Ok (map (λ p, (p.1, mean_of (map (λ r : list cell, r !!! p.2) body))) sel).
Proof.
  intros H. revert pre. induction H as [|p sel Hp _ IH]; intros pre; simpl; [done|].
  rewrite map_map.
  rewrite (map_ext (λ r : list cell,
             map (λ p0 : string * nat, r !!! p0.2) (pre ++ p :: sel) !!! length pre)
           (λ r : list cell, r !!! p.2)).
  2:{ intros r. rewrite map_app. simpl.
      rewrite list_lookup_total_middle; [done|]. by rewrite length_map. }
  unfold nanmean. rewrite Hp. simpl.
  specialize (IH (pre ++ [p])). rewrite length_app, Nat.add_1_r in IH.
  rewrite <-(assoc_L (++)) in IH. simpl in IH. by rewrite IH.
Qed.

Lemma overall_averages_located df cols idx :
  located (columns df) cols idx →
  Forall (λ i, forallb is_float (map (λ r : list cell, r !!! i) (rows df)) = true) idx →
  overall_averages df cols =
    Ok (map (λ col, (col, mean_of (map (λ r : list cell, r !!! position (columns df) col)
                                      (rows df)))) cols).
Proof.
  intros Hloc Hf. unfold overall_averages, getitem_list.
  rewrite (select_positions_located _ _ _ Hloc). simpl. unfold frame_mean. simpl.
  pose proof (means_from_select (rows df) [] (zip cols idx)) as Hm.
  simpl in Hm. rewrite Hm.
  - f_equal. rewrite (located_position _ _ _ Hloc).
    clear. induction cols as [|col cols IH]; simpl; [done|]. by rewrite IH.
  - apply Forall_forall. intros [col i] Hin. simpl.
    rewrite Forall_forall in Hf. apply Hf.
    apply list_elem_of_lookup in Hin as [k Hk].
    apply lookup_zip_Some in Hk as [_ Hk]. simpl in Hk.
    by apply list_elem_of_lookup_2 in Hk.
Qed.

Lemma normalized_float to_float (idx : list nat) (body : list (list cell)) :
  Forall (λ i, forallb is_float
                 (map (λ r : list cell, r !!! i) (map (coerce_row to_float idx) body)) = true)
    idx.
Proof.
  apply Forall_forall. intros i Hi. rewrite map_map. apply forallb_forall.
  intros c Hc. apply in_map_iff in Hc as (r & <- & _).
  rewrite list_lookup_total_alt, coerce_row_lookup, decide_True by done.
  destruct (r !! i); simpl; [apply to_numeric_cell_float|done].
Qed.

Lemma filter_located_NoDup (P : string → Prop) `{!∀ x, Decision (P x)} names idx :
  located names (filter P names) idx → NoDup (filter P names).
Proof.
  intros Hloc.
  assert (Hu : ∀ col j1 j2, P col →
            names !! j1 = Some col → names !! j2 = Some col → j1 = j2).
  { intros col j1 j2 HP H1 H2.
    assert (Hin : col ∈ filter P names).
    { apply list_elem_of_filter. split; [done|]. by eapply list_elem_of_lookup_2. }
    apply (located_elem _ _ _ _ Hloc), positions_singleton in Hin as [_ Hin].
    by rewrite (Hin j1 H1), (Hin j2 H2). }
  clear Hloc. induction names as [|n names IH]; [constructor|].
  rewrite filter_cons. case_decide as HP.
  - constructor.
    + intros [_ [j Hj]%list_elem_of_lookup]%list_elem_of_filter.
      by specialize (Hu n 0 (S j) HP eq_refl Hj).
    + apply IH. intros col j1 j2 HPc H1 H2.
      by specialize (Hu col (S j1) (S j2) HPc H1 H2) as [= ->].
  - apply IH. intros col j1 j2 HPc H1 H2.
    by specialize (Hu col (S j1) (S j2) HPc H1 H2) as [= ->].
Qed.

Lemma score_columns_normalized to_float T N :
  normalize to_float T (score_columns T) = Ok N →
  score_columns N = score_columns T ∧
  NoDup (score_columns T) ∧
  ∃ idx, located (columns N) (score_columns N) idx ∧
         rows N = map (coerce_row to_float idx) (rows T).
Proof.
  intros H. pose proof (normalize_columns _ _ _ _ H) as Hc.
  apply normalize_Ok in H as (idx & Hloc & ->). unfold score_columns in *. simpl in *.
  split; [done|]. split; [by eapply filter_located_NoDup|]. by exists idx.
Qed.

Lemma getitem_Ok df col dup s :
  getitem df col dup = Ok s ↔
  ∃ i, positions col (columns df) = [i] ∧ s = map (λ r : list cell, r !!! i) (rows df).
Proof.
  unfold getitem. rewrite bind_Ok. setoid_rewrite series_position_Ok. naive_solver.
Qed.

Lemma normalized_averages to_float T N :
  normalize to_float T (score_columns T) = Ok N →
  overall_averages N (score_columns N) =
    Ok (map (λ col, (col, mean_of (map (λ r : list cell, r !!! position (columns N) col)
                                      (rows N)))) (score_columns N)).
Proof.
  intros (_ & _ & idx & Hloc & Hrows)%score_columns_normalized.
  apply (overall_averages_located _ _ idx Hloc).
  rewrite Hrows. apply normalized_float.
Qed.

Lemma normalized_score_column to_float T N col s :
  normalize to_float T (score_columns T) = Ok N →
  col ∈ score_columns T →
  getitem N col TypeError = Ok s →
  s = map (λ r : list cell, r !!! position (columns N) col) (rows N) ∧
  forallb is_float s = true.
Proof.
  intros (Hsc & _ & idx & Hloc & Hrows)%score_columns_normalized Hcol
    (i & Hi & ->)%getitem_Ok.
  rewrite <-Hsc in Hcol. pose proof (located_elem _ _ _ _ Hloc Hcol) as Hp.
  rewrite Hp in Hi. injection Hi as <-. split; [done|].
  pose proof (normalized_float to_float idx (rows T)) as Hf.
  rewrite Forall_forall, <-Hrows in Hf. apply Hf.
  rewrite (located_position _ _ _ Hloc).
  apply list_elem_of_fmap. by exists col.
Qed.

Lemma elem_of_keyed_map {B} (f : string → B) (cols : list string) col (m : B) :
  col ∈ cols → (col, m) ∈ map (λ c, (c, f c)) cols ↔ m = f col.
Proof.
  intros Hcol. rewrite map_fmap, list_elem_of_fmap. split.
  - by intros (c & [= -> ->] & _).
  - intros ->. by exists col.
Qed.

Section Aggregator.

Context (to_float : string → option Q).


(** C4.  In a normalized table, take a score column in which every value is
    missing.  The Aggregator returns its averages without raising, and the
    one it returns for that column is NaN, the missing marker, and no
    number. *)
Theorem all_missing_average_is_NaN (T N : DataFrame) (col : string) (s : Series) :
  normalize to_float T (score_columns T) = Ok N →
  col ∈ score_columns T →
  getitem N col TypeError = Ok s →
  Forall (λ c, notna c = false) s →
  ∃ averages,
    overall_averages N (score_columns N) = Ok averages ∧
    ∀ m, (col, m) ∈ averages ↔ m = NaN.
Proof.
  intros HN Hcol Hs Hmiss.
  destruct (normalized_score_column _ _ _ _ _ HN Hcol Hs) as [Heq _].
  eexists. split; [by eapply normalized_averages|].
  intros m. rewrite elem_of_keyed_map.
  - by rewrite <-Heq, (mean_of_all_missing s Hmiss).
  - by rewrite (proj1 (score_columns_normalized _ _ _ HN)).
Qed.

End Aggregator.

(** ** The Per-Student Reshaper *)

Lemma filter_zip_map {A B} (g : A → B) (p : B → bool) (l : list A) :
  map fst (List.filter (λ xy : A * B, p xy.2) (zip l (map g l))) =
  List.filter (λ x, p (g x)) l.
Proof.
  induction l as [|x l IH]; simpl; [done|].
  destruct (p (g x)); simpl; by rewrite IH.
Qed.

Lemma student_df_Ok df selected i :
  positions "이름" (columns df) = [i] →
  student_df df selected =
    Ok (mkDF (columns df)
          (List.filter (λ r : list cell, cell_eqb (r !!! i) selected) (rows df))).
Proof.
  intros Hi. unfold student_df, getitem.
  rewrite (proj2 (series_position_Ok _ _ _ _) Hi). simpl.
  by rewrite (filter_zip_map (λ r : list cell, r !!! i) (λ c, cell_eqb c selected)).
Qed.

Lemma filter_first_match {A} (f : A → bool) (pre post : list A) (x : A) :
  Forall (λ y, f y = false) pre → f x = true →
  List.filter f (pre ++ x :: post) = x :: List.filter f post.
Proof.
  intros Hpre Hx. induction Hpre as [|y pre Hy _ IH]; simpl.
  - by rewrite Hx.
  - by rewrite Hy.
Qed.

Lemma first_match_split {A} (f : A → bool) (l : list A) (x : A) :
  x ∈ l → f x = true →
  ∃ pre y post, l = pre ++ y :: post ∧ Forall (λ z, f z = false) pre ∧ f y = true.
Proof.
  intros Hin Hx. induction l as [|z l IH]; [by apply elem_of_nil in Hin|].
  destruct (f z) eqn:Hz.
  - by exists [], z, l.
  - apply elem_of_cons in Hin as [->|Hin]; [congruence|].
    destruct (IH Hin) as (pre & y & post & -> & Hpre & Hy).
    exists (z :: pre), y, post. split; [done|]. split; [by constructor|done].
Qed.

Lemma student_scores_located names (student_data : list cell) cols idx :
  located names cols idx →
  student_scores names student_data cols =
    Ok (map (λ col, (col, student_data !!! position names col)) cols).
Proof.
  induction 1 as [|col i cols idx Hi _ IH]; simpl; [done|].
  rewrite (proj2 (series_position_Ok _ _ _ _) Hi), IH. simpl.
  unfold position. by rewrite Hi.
Qed.

Lemma filter_key_absent (g : string → cell) (keys : list string) (k : string) :
  k ∉ keys →
  List.filter (λ r : string * cell, bool_decide (r.1 = k)) (map (λ c, (c, g c)) keys) = [].
Proof.
  induction keys as [|a keys IH]; simpl; [done|]. intros Hk.
  rewrite bool_decide_false by set_solver. apply IH. set_solver.
Qed.

Lemma filter_key_present (g : string → cell) (keys : list string) (k : string) :
  NoDup keys → k ∈ keys →
  List.filter (λ r : string * cell, bool_decide (r.1 = k)) (map (λ c, (c, g c)) keys)
  = [(k, g k)].
Proof.
  induction 1 as [|a keys Ha _ IH]; simpl; [by intros ?%elem_of_nil|].
  intros [->|Hk]%elem_of_cons.
  - rewrite bool_decide_true by done. by rewrite filter_key_absent.
  - rewrite bool_decide_false by (intros ->; done). by apply IH.
Qed.

Lemma merge_left_cons (l : string * cell) (left right : list (string * cell)) :
  merge_left (l :: left) right =
    match List.filter (λ r : string * cell, bool_decide (r.1 = l.1)) right with
    | [] => [(l.1, l.2, NaN)]
    | matches => map (λ r : string * cell, (l.1, l.2, r.2)) matches
    end ++ merge_left left right.
Proof. reflexivity. Qed.

(** With the same keys on both sides, none of them twice, the join pairs the
    two values of each key. *)
Lemma merge_left_aligned (f g : string → cell) (ks keys : list string) :
  NoDup keys → ks ⊆ keys →
  merge_left (map (λ c, (c, f c)) ks) (map (λ c, (c, g c)) keys)
  = map (λ c, (c, f c, g c)) ks.
Proof.
  intros Hnd. induction ks as [|k ks IH]; intros Hsub; [done|].
  rewrite map_cons, merge_left_cons. simpl.
  rewrite (filter_key_present g keys k Hnd) by set_solver. simpl.
  rewrite IH by set_solver. done.
Qed.

Lemma plot_df_first_match df averages cols selected i pre r post :
  positions "이름" (columns df) = [i] →
  rows df = pre ++ r :: post →
  Forall (λ p : list cell, cell_eqb (p !!! i) selected = false) pre →
  cell_eqb (r !!! i) selected = true →
  plot_df df averages cols selected =
    (scores ← student_scores (columns df) r cols; Ok (merge_left averages scores)).
Proof.
  intros Hi Hrows Hpre Hr. unfold plot_df.
  rewrite (student_df_Ok _ _ _ Hi), Hrows. simpl.
  by rewrite (filter_first_match (λ r0 : list cell, cell_eqb (r0 !!! i) selected)
                pre post r Hpre Hr).
Qed.

Lemma cell_eqb_refl c : notna c = true → cell_eqb c c = true.
Proof.
  destruct c as [s| |q|]; simpl; try done; intros _.
  - by apply bool_decide_eq_true.
  - apply Qeq_bool_iff. reflexivity.
Qed.

Lemma student_names_Ok df names :
  student_names df = Ok names ↔
  ∃ i, positions "이름" (columns df) = [i] ∧
       names = List.filter notna (map (λ r : list cell, r !!! i) (rows df)).
Proof.
  unfold student_names. rewrite bind_Ok. setoid_rewrite getitem_Ok. naive_solver.
Qed.



(** ** From the loader to the normalizer *)

Lemma NoDup_positions names col :
  NoDup names → col ∈ names → positions col names = [position names col].
Proof. intros Hnd. by apply (located_elem names names _ col (NoDup_located _ Hnd)). Qed.

Lemma NoDup_located_sub names cols :
  NoDup names → cols ⊆ names → located names cols (map (position names) cols).
Proof.
  intros Hnd. induction cols as [|col cols IH]; intros Hsub; simpl; constructor.
  - apply NoDup_positions; set_solver.
  - apply IH. set_solver.
Qed.

Lemma position_lookup names j col :
  NoDup names → names !! j = Some col → position names col = j.
Proof.
  intros Hnd Hj.
  pose proof (NoDup_positions names col Hnd (list_elem_of_lookup_2 _ _ _ Hj)) as Hp.
  apply positions_singleton in Hp as [_ Hu]. symmetry. by apply Hu.
Qed.

Lemma score_columns_subset df : score_columns df ⊆ columns df.
Proof. intros col. unfold score_columns. rewrite list_elem_of_filter. tauto. Qed.

Lemma position_score_column df j col :
  NoDup (columns df) → columns df !! j = Some col →
  j ∈ map (position (columns df)) (score_columns df) ↔ col ∈ score_columns df.
Proof.
  intros Hnd Hj. rewrite map_fmap, list_elem_of_fmap. split.
  - intros (col' & -> & Hcol').
    pose proof (NoDup_positions _ col' Hnd (score_columns_subset df _ Hcol')) as Hp.
    apply positions_singleton in Hp as [Hp _]. by simplify_eq.
  - intros Hcol. exists col. split; [|done]. symmetry. by apply position_lookup.
Qed.

Lemma loaded_normalize to_float spreadsheet worksheet_name :
  let df := (load_data spreadsheet worksheet_name).2 in
  normalize to_float df (score_columns df) =
    Ok (mkDF (columns df)
          (map (coerce_row to_float (map (position (columns df)) (score_columns df)))
             (rows df))).
Proof.
  intros df. apply normalize_Ok. eexists. split; [|done].
  apply NoDup_located_sub; [|apply score_columns_subset].
  apply (load_data_shape spreadsheet worksheet_name).
Qed.

(** C7.  On every table that the loader returns the Score Normalizer returns
    and raises nothing.  It keeps the labels and the number of rows; a cell
    under a score column, which holds a text, becomes the number read in the
    text, or NaN where no number can be read; a cell under an identity
    column stays as it is. *)
Theorem normalizer_coerces_and_never_raises (to_float : string → option Q)
    (spreadsheet : string → result sheet) (worksheet_name : string) :
  let df := (load_data spreadsheet worksheet_name).2 in
  ∃ N, normalize to_float df (score_columns df) = Ok N ∧
       columns N = columns df ∧
       length (rows N) = length (rows df) ∧
       ∀ k j r col,
         rows df !! k = Some r → columns df !! j = Some col →
         ∃ s r', r !! j = Some (Str s) ∧
                 rows N !! k = Some r' ∧
                 r' !! j = Some (if decide (col ∈ score_columns df)
                                 then match to_float s with
                                      | Some q => Num q
                                      | None => NaN
                                      end
                                 else Str s).
Proof.
  intros df. eexists. split; [apply loaded_normalize|]. fold df. simpl.
  split; [done|]. split; [by rewrite length_map|].
  intros k j r col Hk Hj.
  destruct (load_data_shape spreadsheet worksheet_name) as [Hnd Hrows]. fold df in Hnd, Hrows.
  rewrite Forall_forall in Hrows.
  destruct (Hrows r (list_elem_of_lookup_2 _ _ _ Hk)) as [Hlen Htext].
  destruct (lookup_lt_is_Some_2 r j) as [c Hc].
  { rewrite Hlen. by eapply lookup_lt_Some. }
  rewrite Forall_forall in Htext.
  destruct (Htext c (list_elem_of_lookup_2 _ _ _ Hc)) as [s ->].
  exists s, (coerce_row to_float (map (position (columns df)) (score_columns df)) r).
  split; [done|]. split.
  - by rewrite map_fmap, list_lookup_fmap, Hk.
  - rewrite coerce_row_lookup, Hc. simpl.
    destruct (decide (col ∈ score_columns df)) as [Hcol|Hcol].
    + by rewrite decide_True by by apply (position_score_column df j col).
    + by rewrite decide_False by by rewrite (position_score_column df j col).
Qed.

(** ** The student selector *)

Lemma has_expected_elem df col :
  has_expected df = true → col ∈ expected_columns → col ∈ columns df.
Proof.
  unfold has_expected. intros H Hcol. rewrite forallb_forall in H.
  eapply bool_decide_eq_true_1, H. by apply list_elem_of_In.
Qed.

Lemma filter_notna_texts (s : Series) : Forall is_text s → List.filter notna s = s.
Proof.
  induction 1 as [|c s [t ->] _ IH]; simpl; [done|]. by rewrite IH.
Qed.

Lemma coerce_row_identity to_float df j col r :
  NoDup (columns df) → columns df !! j = Some col → col ∈ expected_columns →
  coerce_row to_float (map (position (columns df)) (score_columns df)) r !! j = r !! j.
Proof.
  intros Hnd Hj Hcol. rewrite coerce_row_lookup, decide_False; [done|].
  rewrite (position_score_column df j col Hnd Hj).
  unfold score_columns. rewrite list_elem_of_filter. tauto.
Qed.

Lemma script_shows_radio to_float worksheet_name loaded pick N averages c names :
  df_empty loaded.2 = false →
  has_expected loaded.2 = true →
  normalize to_float loaded.2 (score_columns loaded.2) = Ok N →
  overall_averages N (score_columns loaded.2) = Ok averages →
  student_names N = Ok (c :: names) →
  st_sidebar_radio (c :: names) ∈ shown (script to_float worksheet_name loaded pick).
Proof.
  intros Hne Hexp HN Hav Hnames. unfold script.
  rewrite Hne, Hexp. simpl. rewrite HN, Hav, Hnames.
  repeat case_match; simpl; set_solver.
Qed.

Lemma loaded_student_names to_float spreadsheet worksheet_name :
  let df := (load_data spreadsheet worksheet_name).2 in
  let i := position (columns df) "이름" in
  let names := map (λ r : list cell, r !!! i) (rows df) in
  has_expected df = true →
  ∃ N, normalize to_float df (score_columns df) = Ok N ∧
       columns N = columns df ∧
       positions "이름" (columns N) = [i] ∧
       map (λ r : list cell, r !!! i) (rows N) = names ∧
       student_names N = Ok names ∧
       (∀ r, r ∈ rows df → ∃ s, r !! i = Some (Str s)).
Proof.
  intros df i names Hexp.
  destruct (load_data_shape spreadsheet worksheet_name) as [Hnd Hrows].
  fold df in Hnd, Hrows. rewrite Forall_forall in Hrows.
  pose proof (loaded_normalize to_float spreadsheet worksheet_name) as HN.
  fold df in HN.
  set (idx := map (position (columns df)) (score_columns df)) in *.
  set (N := mkDF (columns df) (map (coerce_row to_float idx) (rows df))) in *.
  assert (Hin : "이름" ∈ columns df).
  { apply has_expected_elem; [done|]. unfold expected_columns. set_solver. }
  assert (Hpos : positions "이름" (columns N) = [i]) by by apply NoDup_positions.
  assert (Hi : columns df !! i = Some "이름").
  { by apply positions_singleton in Hpos as [? _]. }
  assert (Hcell : ∀ r, r ∈ rows df → ∃ s, r !! i = Some (Str s)).
  { intros r Hr. destruct (Hrows r Hr) as [Hlen Htext].
    destruct (lookup_lt_is_Some_2 r i) as [c Hc].
    { rewrite Hlen. by eapply lookup_lt_Some. }
    rewrite Forall_forall in Htext.
    destruct (Htext c (list_elem_of_lookup_2 _ _ _ Hc)) as [s ->]. by exists s. }
  assert (Hcol : map (λ r : list cell, r !!! i) (rows N) = names).
  { simpl. rewrite map_map. apply map_ext_in. intros r Hr%list_elem_of_In.
    rewrite !list_lookup_total_alt. f_equal.
    apply (coerce_row_identity to_float df i "이름"); try done.
    unfold expected_columns. set_solver. }
  assert (Htexts : Forall is_text names).
  { apply Forall_forall. intros c Hc. unfold names in Hc. rewrite map_fmap in Hc.
    apply list_elem_of_fmap in Hc as (r & -> & Hr).
    destruct (Hcell r Hr) as [s Hs]. exists s.
    by rewrite list_lookup_total_alt, Hs. }
  exists N. repeat split; try done.
  apply student_names_Ok. exists i. split; [done|].
  by rewrite Hcol, filter_notna_texts.
Qed.

(** C10.  On a loaded table that is not empty and has the identity columns,
    the selector offers the name cell of every row, in the order of the rows
    and whatever the text in it, the empty text included: every cell of a
    loaded table is a text, and [pd.notna] rejects none. *)
Theorem every_row_is_selectable (to_float : string → option Q)
    (spreadsheet : string → result sheet) (worksheet_name : string) (pick : nat) :
  let loaded := load_data spreadsheet worksheet_name in
  let df := loaded.2 in
  df_empty df = false →
  has_expected df = true →
  ∃ N names,
    normalize to_float df (score_columns df) = Ok N ∧
    student_names N = Ok names ∧
    st_sidebar_radio names ∈ shown (script to_float worksheet_name loaded pick) ∧
    length names = length (rows df) ∧
    ∀ k r, rows df !! k = Some r →
           ∃ s, r !! position (columns df) "이름" = Some (Str s) ∧
                names !! k = Some (Str s).
Proof.
  intros loaded df Hne Hexp.
  destruct (loaded_student_names to_float spreadsheet worksheet_name Hexp)
    as (N & HN & Hc & _ & _ & Hnames & Hcell).
  fold loaded in HN, Hc, Hnames, Hcell. fold df in HN, Hc, Hnames, Hcell.
  set (i := position (columns df) "이름") in *.
  set (names := map (λ r : list cell, r !!! i) (rows df)) in *.
  exists N, names. split; [done|]. split; [done|]. split; [|split].
  - assert (names ≠ []) as Hnn.
    { unfold names, df_empty in *. destruct (columns df), (rows df); done. }
    destruct names as [|c names']; [done|].
    eapply (script_shows_radio to_float worksheet_name loaded pick N); try done.
    pose proof (normalized_averages to_float df N HN) as Hav.
    unfold score_columns in Hav at 1 2. rewrite Hc in Hav. exact Hav.
  - unfold names. by rewrite length_map.
  - intros k r Hk. destruct (Hcell r (list_elem_of_lookup_2 _ _ _ Hk)) as [s Hs].
    exists s. split; [done|]. unfold names.
    rewrite map_fmap, list_lookup_fmap, Hk. simpl.
    by rewrite list_lookup_total_alt, Hs.
Qed.

(** ** The check of the identity columns *)


Lemma load_data_nonempty spreadsheet worksheet_name :
  df_empty (load_data spreadsheet worksheet_name).2 = false →
  (load_data spreadsheet worksheet_name).1 = [].
Proof.
  destruct (load_data_cases spreadsheet worksheet_name)
    as [(df & _ & ->)|(e & ->)]; simpl; [done|]. by vm_compute.
Qed.


(** ** The whole run *)


Lemma radio_elem (options : list cell) (pick : nat) :
  options ≠ [] → radio options pick ∈ options.
Proof.
  intros Hne. unfold radio. destruct (options !! pick) as [c|] eqn:Hc; simpl.
  - by eapply list_elem_of_lookup_2.
  - destruct options as [|c options]; [done|]. simpl. by left.
Qed.


(** ** The cache *)




(** ** Worked examples *)

(** C1, where the code departs from it.  A row of the sheet whose cells are
    all empty comes as a row of empty texts; [dropna] takes an empty text
    for a value, and the row is in the table that the loader returns. *)
Theorem load_data_keeps_blank_row :
  load_data (λ _, Ok blank_row_sheet) "1학기" =
    ([], mkDF ["번호"; "이름"; "성별"; "단원1"]
           [[Str "1"; Str "철수"; Str "남"; Str "90"];
            [Str ""; Str ""; Str ""; Str ""];
            [Str "2"; Str "영희"; Str "여"; Str "x"]]).
Proof. reflexivity. Qed.

(** The example of the specification: 철수 has 90 and 영희 a text that is no
    number; the average of the unit is 90, over the one value, and the
    comparison table of 영희 is the row (단원1, 90, missing). *)
Example specification_example :
  let df := (load_data (λ _, Ok [["번호"; "이름"; "성별"; "단원1"];
                                  ["1"; "철수"; "남"; "90"];
                                  ["2"; "영희"; "여"; "x"]]) "1학기").2 in
  ∃ N, normalize read_digits df (score_columns df) = Ok N ∧
       rows N = [[Str "1"; Str "철수"; Str "남"; Num 90];
                 [Str "2"; Str "영희"; Str "여"; NaN]] ∧
       overall_averages N (score_columns N) = Ok [("단원1", Num 90)] ∧
       plot_df N [("단원1", Num 90)] (score_columns N) (Str "영희")
         = Ok [("단원1", Num 90, NaN)].
Proof. eexists. repeat split; reflexivity. Qed.


(** The class sheet, loaded and normalized. *)
Lemma class_table_normalized :
  normalize read_digits class_table (score_columns class_table) = Ok class_normalized.
Proof. reflexivity. Qed.



Lemma all_missing_average_is_NaN_witness :
  normalize read_digits class_table (score_columns class_table) = Ok class_normalized ∧
  "단원2" ∈ score_columns class_table ∧
  getitem class_normalized "단원2" TypeError = Ok [NaN; NaN; NaN] ∧
  Forall (λ c, notna c = false) [NaN; NaN; NaN] ∧
  ∃ averages,
    overall_averages class_normalized (score_columns class_normalized) = Ok averages ∧
    ∀ m, ("단원2", m) ∈ averages ↔ m = NaN.
Proof.
  assert (H1 : normalize read_digits class_table (score_columns class_table)
               = Ok class_normalized) by reflexivity.
  assert (H2 : "단원2" ∈ score_columns class_table)
    by (apply list_elem_of_In; vm_compute; tauto).
  assert (H3 : getitem class_normalized "단원2" TypeError = Ok [NaN; NaN; NaN])
    by reflexivity.
  assert (H4 : Forall (λ c, notna c = false) [NaN; NaN; NaN])
    by (repeat constructor).
  exact (conj H1 (conj H2 (conj H3 (conj H4
           (all_missing_average_is_NaN read_digits class_table class_normalized
              "단원2" _ H1 H2 H3 H4))))).
Defined.


Lemma every_row_is_selectable_witness :
  let loaded := load_data (λ _, Ok blank_row_sheet) "1학기" in
  df_empty loaded.2 = false ∧
  has_expected loaded.2 = true ∧
  ∃ N names,
    normalize read_digits loaded.2 (score_columns loaded.2) = Ok N ∧
    student_names N = Ok names ∧
    st_sidebar_radio names ∈ shown (script read_digits "1학기" loaded 0) ∧
    length names = length (rows loaded.2) ∧
    ∀ k r, rows loaded.2 !! k = Some r →
           ∃ s, r !! position (columns loaded.2) "이름" = Some (Str s) ∧
                names !! k = Some (Str s).
Proof.
  intros loaded.
  assert (H1 : df_empty loaded.2 = false) by reflexivity.
  assert (H2 : has_expected loaded.2 = true) by reflexivity.
  exact (conj H1 (conj H2
           (every_row_is_selectable read_digits (λ _, Ok blank_row_sheet) "1학기" 0
              H1 H2))).
Defined.


(** * Further properties of the code *)

(** ** The sanitizer of [load_data] *)

Lemma utf8_ignore_step a b c rest :
  utf8_ignore (String a (String b (String c rest))) =
    if surrogate_lead a b then utf8_ignore rest
    else String a (utf8_ignore (String b (String c rest))).
Proof. reflexivity. Qed.

Lemma utf8_ignore_length_le s : String.length (utf8_ignore s) ≤ String.length s.
Proof.
  remember (String.length s) as n eqn:Hn. revert s Hn.
  induction n as [n IH] using lt_wf_ind. intros s ->.
  destruct s as [|a [|b [|c rest]]]; try (simpl; lia).
  rewrite utf8_ignore_step. destruct (surrogate_lead a b).
  - pose proof (IH (String.length rest) ltac:(simpl; lia) rest eq_refl). simpl. lia.
  - pose proof (IH (String.length (String b (String c rest))) ltac:(simpl; lia)
                  _ eq_refl) as H.
    change (S (String.length (utf8_ignore (String b (String c rest))))
            ≤ S (String.length (String b (String c rest)))). lia.
Qed.

Lemma utf8_ignore_clean s : has_surrogate s = false → utf8_ignore s = s.
Proof.
  induction s as [|a tl IH]; [done|].
  destruct tl as [|b [|c rest]].
  - done.
  - done.
  - rewrite utf8_ignore_step.
    change (has_surrogate (String a (String b (String c rest))))
      with (surrogate_lead a b || has_surrogate (String b (String c rest))).
    intros [Ha Htl]%orb_false_iff. rewrite Ha. f_equal. by apply IH.
Qed.

Lemma utf8_ignore_shortens s :
  has_surrogate s = true → String.length (utf8_ignore s) < String.length s.
Proof.
  induction s as [|a tl IH]; [done|].
  destruct tl as [|b [|c rest]].
  - done.
  - done.
  - rewrite utf8_ignore_step.
    change (has_surrogate (String a (String b (String c rest))))
      with (surrogate_lead a b || has_surrogate (String b (String c rest))).
    destruct (surrogate_lead a b); simpl orb.
    + intros _. pose proof (utf8_ignore_length_le rest). simpl. lia.
    + intros H. specialize (IH H).
      change (S (String.length (utf8_ignore (String b (String c rest))))
              < S (String.length (String b (String c rest)))). lia.
Qed.

(** X1.  The sanitizer never makes a text longer, and it changes a text
    exactly when the text holds a lone surrogate: every other text, the
    whole of ASCII and of well-formed UTF-8, comes out as it went in. *)
Theorem utf8_ignore_changes_only_surrogates (s : string) :
  String.length (utf8_ignore s) ≤ String.length s ∧
  (utf8_ignore s = s ↔ has_surrogate s = false).
Proof.
  split; [apply utf8_ignore_length_le|]. split.
  - intros Heq. destruct (has_surrogate s) eqn:H; [|done].
    apply utf8_ignore_shortens in H. rewrite Heq in H. lia.
  - apply utf8_ignore_clean.
Qed.

(** ** The loader in closed form *)

Lemma existsb_replicate_None (k : nat) :
  existsb (λ c : object, bool_decide (is_Some c)) (replicate k None) = false.
Proof. induction k as [|k IH]; [done|]. simpl. by rewrite IH. Qed.

Lemma existsb_map_Some (r : list string) :
  existsb (λ c : object, bool_decide (is_Some c)) (map Some r) = nonempty_row r.
Proof. by destruct r. Qed.

Lemma dropna_all_pad (w : nat) (body : sheet) :
  dropna_all (map (pad_row w) body) = map (pad_row w) (List.filter nonempty_row body).
Proof.
  unfold dropna_all. induction body as [|r body IH]; [done|]. simpl.
  unfold pad_row at 1.
  rewrite existsb_app, existsb_map_Some, existsb_replicate_None, orb_false_r.
  destruct (nonempty_row r); simpl; by rewrite IH.
Qed.

Lemma loaded_row_pad (w : nat) (r : list string) :
  map (λ c : object, Str (utf8_ignore (astype_str c))) (pad_row w r) = loaded_row w r.
Proof.
  unfold pad_row, loaded_row. rewrite map_app, map_map. f_equal.
  induction (w - length r) as [|k IH]; [done|]. simpl. by rewrite IH.
Qed.

Lemma frame_of_lists_fits header body :
  fits header body →
  frame_of_lists body header = Ok (map (pad_row (length header)) body).
Proof.
  unfold fits, frame_of_lists. intros [->|Hw]; [done|].
  destruct body as [|r0 body]; [done|]. rewrite decide_True by done. by rewrite Hw.
Qed.

Lemma frame_of_lists_Ok_fits header body padded :
  frame_of_lists body header = Ok padded → fits header body.
Proof.
  unfold fits, frame_of_lists. destruct body as [|r0 body]; [by left|].
  case_decide; [by right|done].
Qed.

Lemma sanitize_all_columns header (body : list (list object)) :
  NoDup header →
  Forall (λ r, length r = length header) body →
  for_each header (sanitize_column header) body = Ok (map (map sanitize) body).
Proof.
  intros Hnd Hw. apply for_each_sanitize. exists (seq 0 (length header)).
  split; [by apply NoDup_located|]. apply map_ext_in. intros r Hr%list_elem_of_In.
  rewrite Forall_forall in Hw. rewrite <-(Hw r Hr). by rewrite foldl_alter_all.
Qed.

Lemma load_data_try_closed_form header body :
  NoDup header → fits header body →
  load_data_try (Ok (header :: body)) =
    Ok (mkDF header (map (loaded_row (length header)) (List.filter nonempty_row body))).
Proof.
  intros Hnd Hfit. unfold load_data_try. simpl.
  pose proof (frame_of_lists_fits _ _ Hfit) as Hpad. rewrite Hpad. simpl.
  rewrite sanitize_all_columns; [|done|].
  - simpl. do 2 f_equal. rewrite dropna_all_pad, !map_map.
    apply map_ext. intros r. rewrite <-loaded_row_pad.
    change (sanitize <$> pad_row (length header) r)
      with (map sanitize (pad_row (length header) r)).
    rewrite map_map. by apply map_ext.
  - apply Forall_forall. intros r Hr%dropna_all_subset.
    pose proof (frame_of_lists_width _ _ _ Hpad) as Hw.
    rewrite Forall_forall in Hw. by apply Hw.
Qed.

(** X2.  The loader in closed form.  When the first row of the sheet repeats
    no label and the rows under it are as wide as it at their widest, the
    loader shows nothing and returns the labels of the first row over the
    other rows in their order: a row that came as an empty list is left out,
    every text is sanitized, and a row that came short is filled up with the
    text [None]. *)
Theorem load_data_closed_form (spreadsheet : string → result sheet)
    (worksheet_name : string) (header : list string) (body : sheet) :
  spreadsheet worksheet_name = Ok (header :: body) →
  NoDup header →
  fits header body →
  load_data spreadsheet worksheet_name =
    ([], mkDF header
           (map (loaded_row (length header)) (List.filter nonempty_row body))).
Proof.
  intros Hsp Hnd Hfit. unfold load_data.
  by rewrite Hsp, (load_data_try_closed_form header body Hnd Hfit).
Qed.

Lemma loaded_row_clean (n : nat) (r : list string) :
  length r = n → Forall (λ s, has_surrogate s = false) r →
  loaded_row n r = map Str r.
Proof.
  intros Hn Hr. unfold loaded_row. rewrite Hn, Nat.sub_diag. simpl.
  rewrite app_nil_r. apply map_ext_in. intros s Hs%list_elem_of_In.
  rewrite Forall_forall in Hr. by rewrite utf8_ignore_clean by by apply Hr.
Qed.

(** X3.  On a sheet as the spreadsheet client gives it, with some column, no
    label twice, every row as wide as the first and no lone surrogate in a
    cell, the loader returns the sheet as it is: the first row as the
    labels, every other row as a row of the table, every cell the text that
    the sheet holds, an empty row included. *)
Theorem load_data_returns_the_sheet (spreadsheet : string → result sheet)
    (worksheet_name : string) (header : list string) (body : sheet) :
  spreadsheet worksheet_name = Ok (header :: body) →
  header ≠ [] →
  NoDup header →
  Forall (λ r, length r = length header ∧ Forall (λ s, has_surrogate s = false) r)
    body →
  load_data spreadsheet worksheet_name = ([], mkDF header (map (map Str) body)).
Proof.
  intros Hsp Hne Hnd Hbody. unfold load_data.
  assert (Hfit : fits header body).
  { destruct body as [|r0 body]; [by left|right].
    pose proof (max_list_elem_of (map length (r0 :: body)) ltac:(done)) as Hmax.
    rewrite map_fmap in Hmax at 2. apply list_elem_of_fmap in Hmax as (r & Hmax & Hr).
    rewrite Hmax. rewrite Forall_forall in Hbody. by apply Hbody. }
  rewrite Hsp, (load_data_try_closed_form header body Hnd Hfit). do 2 f_equal.
  clear Hsp Hfit. induction Hbody as [|r body [Hlen Hclean] _ IH]; [done|]. simpl.
  assert (nonempty_row r = true) as ->.
  { destruct r; [|done]. destruct header; done. }
  simpl. by rewrite IH, loaded_row_clean.
Qed.

(** ** When the loader fails *)

Global Instance fits_dec header body : Decision (fits header body).
Proof. unfold fits. apply _. Defined.

Lemma positions_nil_absent col names : positions col names = [] → col ∉ names.
Proof.
  intros H [i Hi]%list_elem_of_lookup. apply elem_of_positions in Hi.
  rewrite H in Hi. by apply elem_of_nil in Hi.
Qed.

Lemma for_each_sanitize_Raise names cols body e :
  for_each cols (sanitize_column names) body = Raise e →
  cols ⊆ names → e = AttributeError.
Proof.
  revert body. induction cols as [|col cols IH]; intros body; simpl; [done|].
  intros H Hsub.
  destruct (sanitize_column names body col) as [b|e'] eqn:Hc; simpl in H.
  - apply (IH _ H). set_solver.
  - injection H as <-. unfold sanitize_column, series_position in Hc.
    destruct (positions col names) as [|i [|j ps]] eqn:Hp; simpl in Hc.
    + apply positions_nil_absent in Hp. set_solver.
    + done.
    + by injection Hc as <-.
Qed.

Lemma load_data_try_duplicate header body :
  fits header body → ¬ NoDup header →
  load_data_try (Ok (header :: body)) = Raise AttributeError.
Proof.
  intros Hfit Hdup. unfold load_data_try. simpl.
  rewrite (frame_of_lists_fits _ _ Hfit). simpl.
  destruct (for_each header _ _) as [b|e] eqn:Hloop; simpl.
  - apply for_each_sanitize in Hloop as (idx & Hloc & _).
    by apply located_all in Hloc as [_ ?].
  - by rewrite (for_each_sanitize_Raise _ _ _ _ Hloop).
Qed.

Lemma load_data_try_misfit header body :
  ¬ fits header body → load_data_try (Ok (header :: body)) = Raise ValueError.
Proof.
  intros Hfit. unfold load_data_try. simpl.
  destruct (frame_of_lists body header) as [padded|e] eqn:Hpad; simpl.
  - by apply frame_of_lists_Ok_fits in Hpad.
  - unfold frame_of_lists in Hpad. destruct body; [done|].
    case_decide; [done|]. by injection Hpad as <-.
Qed.

(** X4.  The loader returns the empty table under an error line in four
    cases and no other: fetching the values raised; the sheet has no row, so
    no header row; the rows under the header row are not as wide as it at
    their widest (ValueError); the header row repeats a label
    (AttributeError, from [df[col].dtype]).  In each of them the page is
    that error line and the line that no data was found, and the run
    stops. *)
Theorem load_data_failure_iff (to_float : string → option Q)
    (spreadsheet : string → result sheet) (worksheet_name : string) (pick : nat)
    (e : exn) :
  (load_data spreadsheet worksheet_name
     = ([st_error_load worksheet_name e], empty_frame) ↔
   spreadsheet worksheet_name = Raise e ∨
   (spreadsheet worksheet_name = Ok [] ∧ e = IndexError) ∨
   (∃ header body,
      spreadsheet worksheet_name = Ok (header :: body) ∧
      ((¬ fits header body ∧ e = ValueError) ∨
       (fits header body ∧ ¬ NoDup header ∧ e = AttributeError)))) ∧
  (load_data spreadsheet worksheet_name
     = ([st_error_load worksheet_name e], empty_frame) →
   script to_float worksheet_name (load_data spreadsheet worksheet_name) pick
     = mkPage [st_error_load worksheet_name e; st_info msg_no_data]
         (Stopped empty_frame)).
Proof.
  split; [|by intros ->]. unfold load_data.
  destruct (spreadsheet worksheet_name) as [[|header body]|e0] eqn:Hsp.
  - change (load_data_try (Ok [])) with (@Raise DataFrame IndexError). split.
    + intros [= <-]. right. by left.
    + intros [[=]|[[_ ->]|(? & ? & [=] & _)]]. done.
  - destruct (decide (fits header body)) as [Hfit|Hfit].
    + destruct (decide (NoDup header)) as [Hnd|Hnd].
      * pose proof (load_data_try_closed_form _ _ Hnd Hfit) as E.
        unfold sheet in *. rewrite E. split; [done|].
        intros [[=]|[[[=] _]|(h & b & [= <- <-] & [[? _]|(_ & ? & _)])]]; done.
      * pose proof (load_data_try_duplicate _ _ Hfit Hnd) as E.
        unfold sheet in *. rewrite E. split.
        -- intros [= <-]. right. right. exists header, body. split; [done|].
           by right.
        -- intros [[=]|[[[=] _]|(h & b & [= <- <-] & [[? _]|(_ & _ & ->)])]]; done.
    + pose proof (load_data_try_misfit _ _ Hfit) as E.
      unfold sheet in *. rewrite E. split.
      * intros [= <-]. right. right. exists header, body. split; [done|]. by left.
      * intros [[=]|[[[=] _]|(h & b & [= <- <-] & [[_ ->]|(? & _)])]]; done.
  - change (load_data_try (Raise e0)) with (@Raise DataFrame e0). split.
    + intros [= <-]. by left.
    + intros [[= ->]|[[[=] _]|(? & ? & [=] & _)]]. done.
Qed.

(** X5.  What every result of the loader satisfies, whatever was fetched: no
    label is on two columns, every row has a cell under every label, every
    cell is a text, and an error line comes with the empty table only. *)
Theorem loaded_table_invariant (spreadsheet : string → result sheet)
    (worksheet_name : string) :
  let loaded := load_data spreadsheet worksheet_name in
  NoDup (columns loaded.2) ∧
  Forall (λ r, length r = length (columns loaded.2) ∧ Forall is_text r)
    (rows loaded.2) ∧
  (loaded.1 = [] ∨
   ∃ e, loaded = ([st_error_load worksheet_name e], empty_frame)).
Proof.
  intros loaded.
  destruct (load_data_shape spreadsheet worksheet_name) as [Hnd Hrows].
  split; [done|]. split; [done|].
  destruct (load_data_cases spreadsheet worksheet_name)
    as [(df & _ & H)|(e & H)]; unfold loaded; rewrite H; [by left|right; by exists e].
Qed.

(** ** The cache in front of the loader *)

(** X6.  A table stays in the cache for 300 seconds: once a worksheet was
    loaded at time [t1] into a cache that had no entry for it, a call at any
    time before [t1 + 300] returns what that load returned and leaves the
    cache as it is, whatever the sheet holds by then. *)
Theorem cache_serves_stored_table (spreadsheet spreadsheet' : string → result sheet)
    (worksheet_name : string) (t1 t2 : nat) (cache : gmap string entry) :
  cache !! worksheet_name = None →
  t2 < t1 + 300 →
  let first := load_data_cached spreadsheet t1 cache worksheet_name in
  first.1 = load_data spreadsheet worksheet_name ∧
  load_data_cached spreadsheet' t2 first.2 worksheet_name = (first.1, first.2).
Proof.
  intros Hc Ht first.
  assert (Hfirst : first = (load_data spreadsheet worksheet_name,
            <[worksheet_name := mkEntry t1 (load_data spreadsheet worksheet_name)]> cache)).
  { unfold first, load_data_cached. by rewrite Hc. }
  rewrite Hfirst. simpl. split; [done|].
  unfold load_data_cached. rewrite lookup_insert_eq. simpl.
  by rewrite decide_True by (unfold ttl; lia).
Qed.

(** X7.  After 300 seconds the entry has expired: a call at [t1 + 300] or
    later fetches the sheet again, returns what the loader makes of it now,
    and stores that under the new time. *)
Theorem cache_refetches_after_ttl (spreadsheet spreadsheet' : string → result sheet)
    (worksheet_name : string) (t1 t2 : nat) (cache : gmap string entry) :
  cache !! worksheet_name = None →
  t1 + 300 ≤ t2 →
  let first := load_data_cached spreadsheet t1 cache worksheet_name in
  let second := load_data_cached spreadsheet' t2 first.2 worksheet_name in
  second.1 = load_data spreadsheet' worksheet_name ∧
  second.2 !! worksheet_name = Some (mkEntry t2 (load_data spreadsheet' worksheet_name)).
Proof.
  intros Hc Ht first second.
  assert (Hfirst : first = (load_data spreadsheet worksheet_name,
            <[worksheet_name := mkEntry t1 (load_data spreadsheet worksheet_name)]> cache)).
  { unfold first, load_data_cached. by rewrite Hc. }
  unfold second. rewrite Hfirst. simpl.
  unfold load_data_cached. rewrite lookup_insert_eq. simpl.
  rewrite decide_False by (unfold ttl; lia). simpl.
  by rewrite lookup_insert_eq.
Qed.

(** X8.  A call changes the cache under its own worksheet only: the entries
    of the other worksheets are as before, and the cache then holds, for the
    worksheet of the call, what the call returned, in an entry that has not
    expired. *)
Theorem cache_frame (spreadsheet : string → result sheet) (now : nat)
    (cache : gmap string entry) (worksheet_name : string) :
  let r := load_data_cached spreadsheet now cache worksheet_name in
  (∀ other, other ≠ worksheet_name → r.2 !! other = cache !! other) ∧
  ∃ e, r.2 !! worksheet_name = Some e ∧ cached e = r.1 ∧ now < stored_at e + ttl.
Proof.
  intros r. unfold r, load_data_cached.
  destruct (cache !! worksheet_name) as [e|] eqn:He.
  - case_decide as Hlt; simpl.
    + split; [done|]. by exists e.
    + split; [intros other Hne; by rewrite lookup_insert_ne|].
      eexists. rewrite lookup_insert_eq. split; [reflexivity|]. simpl. split; [done|].
      unfold ttl. lia.
  - simpl. split; [intros other Hne; by rewrite lookup_insert_ne|].
    eexists. rewrite lookup_insert_eq. split; [reflexivity|]. simpl. split; [done|].
    unfold ttl. lia.
Qed.

(** ** Identity columns and score columns of a loaded table *)

(** X9.  In a loaded table that has the three identity columns, the score
    columns are the other columns: the columns are the identity columns
    together with the score columns, each once, so there are three fewer
    score columns than columns, and no score column is an identity
    column. *)
Theorem loaded_columns_split (spreadsheet : string → result sheet)
    (worksheet_name : string) :
  let df := (load_data spreadsheet worksheet_name).2 in
  has_expected df = true →
  columns df ≡ₚ expected_columns ++ score_columns df ∧
  length (columns df) = 3 + length (score_columns df) ∧
  ∀ col, col ∈ score_columns df → col ∉ expected_columns.
Proof.
  intros df Hexp.
  destruct (load_data_shape spreadsheet worksheet_name) as [Hnd _]. fold df in Hnd.
  assert (Hperm : columns df ≡ₚ expected_columns ++ score_columns df).
  { rewrite <-(filter_app_complement (λ col, col ∈ expected_columns) (columns df)).
    apply Permutation_app; [|done].
    apply NoDup_Permutation.
    - by apply NoDup_filter.
    - unfold expected_columns. by compute_done.
    - intros col. rewrite list_elem_of_filter. split; [tauto|].
      intros Hcol. split; [done|]. by apply has_expected_elem. }
  split; [done|]. split.
  - by rewrite Hperm.
  - intros col. unfold score_columns. rewrite list_elem_of_filter. tauto.
Qed.

(** ** The Score Normalizer on any table *)

Lemma length_coerce_row to_float idx r : length (coerce_row to_float idx r) = length r.
Proof.
  unfold coerce_row. revert r. induction idx as [|i idx IH]; intros r; simpl; [done|].
  by rewrite IH, length_alter.
Qed.

Lemma located_positions names cols :
  (∀ col, col ∈ cols → ∃ i, positions col names = [i]) →
  located names cols (map (position names) cols).
Proof.
  induction cols as [|col cols IH]; intros H; simpl; constructor.
  - destruct (H col) as [i Hi]; [by left|]. unfold position. by rewrite Hi.
  - apply IH. intros c Hc. apply H. by right.
Qed.

Lemma located_each names cols idx col :
  located names cols idx → col ∈ cols → ∃ i, positions col names = [i].
Proof. intros Hloc Hcol. eexists. by eapply located_elem. Qed.

Lemma normalize_Raise to_float T C e :
  normalize to_float T C = Raise e →
  ∃ col, col ∈ C ∧
         ((e = KeyError col ∧ col ∉ columns T) ∨
          (e = TypeError ∧ 2 ≤ length (positions col (columns T)))).
Proof.
  unfold normalize. revert T. induction C as [|col C IH]; intros T; simpl; [done|].
  rewrite coerce_column_unfold. unfold series_position.
  destruct (positions col (columns T)) as [|i [|j ps]] eqn:Hp; simpl.
  - intros [= <-]. exists col. split; [by left|]. left. split; [done|].
    by apply positions_nil_absent.
  - intros (c & Hc & H)%IH. exists c. split; [by right|]. exact H.
  - intros [= <-]. exists col. split; [by left|]. right. rewrite Hp. simpl.
    split; [done|lia].
Qed.

(** X10.  When the normalizer returns and when it raises, on any table and
    any list of columns: it returns exactly when each listed label is on one
    column and one only; when it raises, the exception is KeyError for a
    listed label that no column carries, or TypeError for a listed label
    that several columns carry. *)
Theorem normalize_outcome (to_float : string → option Q) (T : DataFrame)
    (C : list string) :
  ((∃ N, normalize to_float T C = Ok N) ↔
   ∀ col, col ∈ C → ∃ i, positions col (columns T) = [i]) ∧
  ∀ e, normalize to_float T C = Raise e →
       ∃ col, col ∈ C ∧
              ((e = KeyError col ∧ col ∉ columns T) ∨
               (e = TypeError ∧ 2 ≤ length (positions col (columns T)))).
Proof.
  split; [split|].
  - intros [N (idx & Hloc & _)%normalize_Ok] col Hcol. by eapply located_each.
  - intros H. eexists. apply normalize_Ok. eexists. split; [|done].
    by apply located_positions.
  - intros e. apply normalize_Raise.
Qed.

(** X11.  The order of the loop does not matter, nor does a label listed
    twice: when the normalizer returns on a list of columns, it returns the
    same table on every list that has the same labels. *)
Theorem normalize_order_irrelevant (to_float : string → option Q)
    (T N : DataFrame) (C C' : list string) :
  normalize to_float T C = Ok N →
  (∀ col, col ∈ C' ↔ col ∈ C) →
  normalize to_float T C' = Ok N.
Proof.
  intros (idx & Hloc & ->)%normalize_Ok Hsame. apply normalize_Ok.
  exists (map (position (columns T)) C'). split.
  - apply located_positions. intros col Hcol%Hsame. by eapply located_each.
  - f_equal. apply map_ext. intros r. apply list_eq. intros j.
    rewrite !coerce_row_lookup, (located_position _ _ _ Hloc).
    destruct (decide (j ∈ map (position (columns T)) C)) as [Hj|Hj].
    + rewrite decide_True; [done|]. rewrite map_fmap, list_elem_of_fmap in Hj |- *.
      destruct Hj as (col & -> & Hcol). exists col. by rewrite Hsame.
    + rewrite decide_False; [done|]. rewrite map_fmap, list_elem_of_fmap in Hj |- *.
      intros (col & -> & Hcol). apply Hj. exists col. by rewrite <-Hsame.
Qed.

(** X12.  What the normalizer keeps and what it changes, on any table: the
    labels, the number of rows and the length of each row stay; under a
    listed label a cell becomes what [pd.to_numeric] makes of it, and every
    other cell stays as it is. *)
Theorem normalize_shape (to_float : string → option Q) (T N : DataFrame)
    (C : list string) :
  normalize to_float T C = Ok N →
  columns N = columns T ∧
  length (rows N) = length (rows T) ∧
  ∀ k r, rows T !! k = Some r →
    ∃ r', rows N !! k = Some r' ∧
          length r' = length r ∧
          ∀ j col, columns T !! j = Some col →
            r' !! j = if decide (col ∈ C)
                      then to_numeric_cell to_float <$> r !! j
                      else r !! j.
Proof.
  intros (idx & Hloc & ->)%normalize_Ok. simpl. split; [done|].
  split; [by rewrite length_map|]. intros k r Hk.
  exists (coerce_row to_float idx r). split; [|split].
  - by rewrite map_fmap, list_lookup_fmap, Hk.
  - apply length_coerce_row.
  - intros j col Hj. rewrite coerce_row_lookup.
    destruct (decide (col ∈ C)) as [Hcol|Hcol].
    + rewrite decide_True; [done|].
      pose proof (located_elem _ _ _ _ Hloc Hcol) as Hp.
      apply positions_singleton in Hp as [_ Hu]. rewrite (Hu j Hj).
      rewrite (located_position _ _ _ Hloc), map_fmap, list_elem_of_fmap.
      by exists col.
    + rewrite decide_False; [done|].
      rewrite (located_position _ _ _ Hloc), map_fmap, list_elem_of_fmap.
      intros (c & -> & Hc). apply Hcol.
      pose proof (located_elem _ _ _ _ Hloc Hc) as Hp.
      apply positions_singleton in Hp as [Hp _]. by simplify_eq.
Qed.

(** ** The averages: range, and cells that do not count *)








(** ** The page of a run *)

Lemma getitem_list_located df labels idx :
  located (columns df) labels idx →
  getitem_list df labels =
    Ok (mkDF labels (map (λ r : list cell, map (λ i, r !!! i) idx) (rows df))).
Proof.
  intros Hloc. unfold getitem_list.
  rewrite (select_positions_located _ _ _ Hloc). simpl.
  pose proof (Forall2_length _ _ _ Hloc) as Hlen. f_equal. f_equal.
  - rewrite map_fmap. apply fst_zip. lia.
  - apply map_ext. intros r.
    rewrite <-(map_map snd (λ i, r !!! i)), (map_fmap snd). f_equal.
    apply snd_zip. lia.
Qed.

Lemma filter_map_length {A B} (g : A → B) (p : B → bool) (q : A → bool) (l : list A) :
  (∀ x, x ∈ l → p (g x) = q x) →
  length (List.filter p (map g l)) = length (List.filter q l).
Proof.
  induction l as [|x l IH]; intros H; simpl; [done|].
  rewrite (H x) by by left. destruct (q x); simpl; rewrite IH; try done;
    intros y Hy; apply H; by right.
Qed.

(** The run on a loaded table that has rows and the identity columns. *)
Lemma dashboard_page to_float spreadsheet worksheet_name pick :
  let loaded := load_data spreadsheet worksheet_name in
  let df := loaded.2 in
  let i := position (columns df) "이름" in
  let names := map (λ r : list cell, r !!! i) (rows df) in
  let selected := radio names pick in
  df_empty df = false →
  has_expected df = true →
  ∃ N averages,
    normalize to_float df (score_columns df) = Ok N ∧
    overall_averages N (score_columns df) = Ok averages ∧
    selected ∈ names ∧
    if truthy selected then
      ∃ preview plot,
        columns preview = expected_columns ++ score_columns df ∧
        length (rows preview) =
          length (List.filter (λ r : list cell, cell_eqb (r !!! i) selected) (rows df)) ∧
        plot_df N averages (score_columns df) selected = Ok plot ∧
        map (λ row, row.1.1) plot = score_columns df ∧
        script to_float worksheet_name loaded pick =
          mkPage [st_sidebar_header "학생 선택"; st_sidebar_radio names;
                  st_header selected; st_write worksheet_name selected;
                  st_dataframe preview; st_plotly_chart plot;
                  st_subheader "세부 점수"; st_detail_table plot]
                 (Finished N)
    else
      script to_float worksheet_name loaded pick =
        mkPage [st_sidebar_header "학생 선택"; st_sidebar_radio names;
                st_info msg_pick_student]
               (Finished N).
Proof.
  intros loaded df i names selected Hne Hexp.
  destruct (loaded_student_names to_float spreadsheet worksheet_name Hexp)
    as (N & HN & Hc & Hpos & Hcol & Hnames & Hcell).
  fold loaded in HN, Hc, Hpos, Hcol, Hnames, Hcell.
  fold df in HN, Hc, Hpos, Hcol, Hnames, Hcell.
  fold i in Hpos, Hcol, Hnames, Hcell. fold names in Hcol, Hnames.
  pose proof (normalized_averages to_float df N HN) as Hav.
  pose proof (score_columns_normalized to_float df N HN) as (Hsc & Hnd & idx & Hloc & _).
  rewrite Hsc in Hav, Hloc.
  destruct (load_data_shape spreadsheet worksheet_name) as [Hndc _].
  fold loaded in Hndc. fold df in Hndc.
  assert (Hout : loaded.1 = []) by by apply load_data_nonempty.
  assert (Hnn : names ≠ []).
  { unfold names, df_empty in *. destruct (columns df), (rows df); done. }
  assert (Hsel : selected ∈ names) by by apply radio_elem.
  match type of Hav with _ = Ok ?a => set (averages := a) in * end.
  exists N, averages. split; [done|]. split; [exact Hav|]. split; [done|].
  assert (Hscript : script to_float worksheet_name loaded pick =
    if truthy selected then
      match student_df N selected with
      | Raise e => mkPage [st_sidebar_header "학생 선택"; st_sidebar_radio names;
                           st_header selected] (Crashed e)
      | Ok sdf =>
        match getitem_list sdf (expected_columns ++ score_columns df) with
        | Raise e => mkPage [st_sidebar_header "학생 선택"; st_sidebar_radio names;
                             st_header selected; st_write worksheet_name selected]
                       (Crashed e)
        | Ok preview =>
          match plot_df N averages (score_columns df) selected with
          | Raise e => mkPage [st_sidebar_header "학생 선택"; st_sidebar_radio names;
                               st_header selected; st_write worksheet_name selected;
                               st_dataframe preview] (Crashed e)
          | Ok plot => mkPage [st_sidebar_header "학생 선택"; st_sidebar_radio names;
                  st_header selected; st_write worksheet_name selected;
                  st_dataframe preview; st_plotly_chart plot;
                  st_subheader "세부 점수"; st_detail_table plot]
                 (Finished N)
          end
        end
      end
    else mkPage [st_sidebar_header "학생 선택"; st_sidebar_radio names;
                 st_info msg_pick_student] (Finished N)).
  { unfold script. fold loaded. fold df. rewrite Hne, Hexp, Hout. simpl.
    rewrite HN, Hav, Hnames. fold selected.
    destruct names as [|c names'] eqn:Hn; [done|]. fold selected.
    destruct (truthy selected); [|done].
    destruct (student_df N selected) as [sdf|e]; [|done].
    change ("번호" :: "이름" :: "성별" :: score_columns df)
      with (expected_columns ++ score_columns df).
    destruct (getitem_list sdf _) as [preview|e]; [|done].
    by destruct (plot_df N _ _ selected). }
  rewrite Hscript. destruct (truthy selected); [|done].
  rewrite (student_df_Ok N selected i Hpos).
  assert (Hlab : located (columns N) (expected_columns ++ score_columns df)
                   (map (position (columns N)) (expected_columns ++ score_columns df))).
  { rewrite Hc. apply NoDup_located_sub; [done|].
    intros l [Hl|Hl]%elem_of_app; [by apply has_expected_elem|].
    by apply score_columns_subset. }
  rewrite (getitem_list_located
             (mkDF (columns N)
                (List.filter (λ r : list cell, cell_eqb (r !!! i) selected) (rows N)))
             _ _ Hlab).
  assert (Hrow : ∃ r0, r0 ∈ rows N ∧ selected = r0 !!! i).
  { rewrite <-Hcol, map_fmap in Hsel.
    apply list_elem_of_fmap in Hsel as (r0 & ? & ?). by exists r0. }
  destruct Hrow as (r0 & Hin & Hr0).
  assert (Hna : notna selected = true).
  { unfold names in Hsel. rewrite map_fmap in Hsel.
    apply list_elem_of_fmap in Hsel as (r & -> & Hr).
    destruct (Hcell r Hr) as [s Hs]. by rewrite list_lookup_total_alt, Hs. }
  destruct (first_match_split (λ r : list cell, cell_eqb (r !!! i) selected)
              (rows N) r0 Hin) as (pre & r & post & Hrows & Hpre & Hr).
  { rewrite <-Hr0. by apply cell_eqb_refl. }
  rewrite (plot_df_first_match N _ _ selected i pre r post Hpos Hrows Hpre Hr).
  rewrite (student_scores_located _ _ _ _ Hloc). simpl. unfold averages.
  rewrite merge_left_aligned by done.
  eexists _, _. split; [|split; [|split; [|split; [|reflexivity]]]].
  - reflexivity.
  - simpl. rewrite length_map.
    pose proof HN as HN0. apply normalize_Ok in HN0 as (idx0 & Hloc0 & ->). simpl.
    apply filter_map_length. intros x Hx. f_equal.
    simpl in Hcol. unfold names in Hcol. rewrite map_map in Hcol.
    assert (Hall : Forall2 eq (map (λ x, coerce_row to_float idx0 x !!! i) (rows df))
                     (map (λ r : list cell, r !!! i) (rows df))) by by rewrite Hcol.
    apply list_elem_of_lookup in Hx as [k Hk].
    rewrite Forall2_lookup in Hall. specialize (Hall k).
    rewrite !map_fmap, !list_lookup_fmap, Hk in Hall. simpl in Hall.
    by inversion Hall.
  - reflexivity.
  - rewrite map_map. simpl. apply map_id.
Qed.


(** X16.  A row with an empty name cell is offered by the selector, and
    picking it shows no dashboard: the page is the selector and the line
    that asks to select a student, with no header, no preview and no
    chart. *)
Theorem empty_name_shows_no_chart (to_float : string → option Q)
    (spreadsheet : string → result sheet) (worksheet_name : string) (pick : nat)
    (r : list cell) :
  let loaded := load_data spreadsheet worksheet_name in
  let df := loaded.2 in
  let i := position (columns df) "이름" in
  let names := map (λ r : list cell, r !!! i) (rows df) in
  has_expected df = true →
  rows df !! pick = Some r →
  r !! i = Some (Str "") →
  names !! pick = Some (Str "") ∧
  ∃ N, script to_float worksheet_name loaded pick =
         mkPage [st_sidebar_header "학생 선택"; st_sidebar_radio names;
                 st_info msg_pick_student]
                (Finished N).
Proof.
  intros loaded df i names Hexp Hpick Hr.
  assert (Hname : names !! pick = Some (Str "")).
  { unfold names. rewrite map_fmap, list_lookup_fmap, Hpick. simpl.
    by rewrite list_lookup_total_alt, Hr. }
  split; [done|].
  assert (Hne : df_empty df = false).
  { unfold df_empty. destruct (columns df) eqn:Hcols.
    - pose proof (has_expected_elem df "이름" Hexp) as Hin.
      rewrite Hcols in Hin. exfalso. eapply not_elem_of_nil, Hin.
      unfold expected_columns. set_solver.
    - by destruct (rows df). }
  destruct (dashboard_page to_float spreadsheet worksheet_name pick Hne Hexp)
    as (N & averages & _ & _ & _ & Hpage).
  fold loaded df i names in Hpage.
  assert (Hsel : radio names pick = Str "") by (unfold radio; by rewrite Hname).
  rewrite Hsel in Hpage. simpl in Hpage. by exists N.
Qed.

(** X17.  The warning that no student name was found is never shown: a
    loaded table that gets as far as the selector has a row, every name cell
    of it is a text, and [pd.notna] keeps every text. *)
Theorem no_students_warning_never_shown (to_float : string → option Q)
    (spreadsheet : string → result sheet) (worksheet_name : string) (pick : nat)
    (msg : string) :
  st_sidebar_warning msg ∉
    shown (script to_float worksheet_name (load_data spreadsheet worksheet_name) pick).
Proof.
  set (loaded := load_data spreadsheet worksheet_name).
  destruct (df_empty loaded.2) eqn:Hne.
  - unfold script. rewrite Hne. simpl.
    destruct (load_data_cases spreadsheet worksheet_name)
      as [(df & _ & H)|(e & H)]; fold loaded in H; rewrite H; simpl; set_solver.
  - destruct (has_expected loaded.2) eqn:Hexp.
    + destruct (dashboard_page to_float spreadsheet worksheet_name pick Hne Hexp)
        as (N & averages & _ & _ & _ & Hpage).
      fold loaded in Hpage. destruct (truthy _).
      * destruct Hpage as (preview & plot & _ & _ & _ & _ & ->). simpl. set_solver.
      * rewrite Hpage. simpl. set_solver.
    + pose proof (load_data_nonempty spreadsheet worksheet_name Hne) as Hout.
      fold loaded in Hout. unfold script. rewrite Hne, Hexp, Hout. simpl. set_solver.
Qed.

(** ** The head of the script *)

(** X18.  A failed listing of the worksheets is kept for 300 seconds, and
    the page it gives has no refresh button: after a run in which the
    listing raised, every run within that time shows the same error line
    and the warning again and leaves the caches as they are, the refresh
    flag set or not, and whatever the spreadsheet would list by then. *)
Theorem failed_listing_sticks (to_float : string → option Q)
    (spreadsheet spreadsheet' : Spreadsheet) (e : exn) (t1 t2 : nat) (c : caches)
    (refresh refresh' : bool) (sheet_pick student_pick sheet_pick' student_pick' : nat) :
  names_entry c = None →
  worksheets spreadsheet = Raise e →
  t2 < t1 + 300 →
  let first := main to_float refresh (Ok spreadsheet) t1 c sheet_pick student_pick in
  first.1 = mkTop [el_worksheets_error e; el_no_worksheets] Halted ∧
  main to_float refresh' (Ok spreadsheet') t2 first.2 sheet_pick' student_pick'
    = first.
Proof.
  intros Hc Hw Ht first.
  assert (Hfirst : first =
            (mkTop [el_worksheets_error e; el_no_worksheets] Halted,
             mkCaches (Some (t1, ([el_worksheets_error e], []))) (data_entries c))).
  { unfold first, main, button_reached, run_once, get_worksheet_names_cached,
      get_worksheet_names.
    rewrite Hc, Hw. simpl. by rewrite andb_false_r. }
  rewrite Hfirst. split; [done|].
  unfold main, button_reached, run_once, get_worksheet_names_cached. simpl.
  rewrite decide_True by (unfold ttl; lia). simpl. by rewrite andb_false_r.
Qed.

(** X19.  Refresh shows the sheet as it is now.  When the spreadsheet lists
    its worksheets and a run with the button pressed reaches the button, the
    page and the caches it leaves are those of a first run: the titles as
    listed now in the selector, the table that the loader makes now of the
    selected worksheet, and nothing of what the caches held. *)
Theorem refresh_shows_current_data (to_float : string → option Q)
    (spreadsheet : Spreadsheet) (titles : list string) (now : nat) (c : caches)
    (sheet_pick student_pick : nat) :
  worksheets spreadsheet = Ok titles →
  titles ≠ [] →
  button_reached (Ok spreadsheet) now c = true →
  let selected := selectbox titles sheet_pick in
  let loaded := load_data (get_all_values spreadsheet) selected in
  let p := script to_float selected loaded student_pick in
  main to_float true (Ok spreadsheet) now c sheet_pick student_pick =
    (mkTop ([el_selectbox titles; el_refresh_button] ++ map el_widget (shown p))
           (Ran (ended p)),
     mkCaches (Some (now, ([], titles))) {[ selected := mkEntry now loaded ]}).
Proof.
  intros Hw Hne Hb selected loaded p. unfold main. rewrite Hb. simpl.
  unfold run_once, get_worksheet_names_cached, get_worksheet_names. simpl.
  rewrite Hw. simpl. destruct titles as [|t titles]; [done|].
  unfold app, load_data_cached. rewrite lookup_empty. simpl.
  by rewrite insert_empty.
Qed.

(** ** A name that is on no row *)

(** X21.  When the selected value is the name of no row, the Reshaper
    raises IndexError, at [student_df.iloc[0]]: it has no answer for a
    student who is not in the table.  (The script takes the selected value
    from the name column, so its runs do not come here.) *)
Theorem plot_df_without_match (df : DataFrame) (averages : list (string * cell))
    (cols : list string) (selected : cell) (i : nat) :
  positions "이름" (columns df) = [i] →
  Forall (λ r : list cell, cell_eqb (r !!! i) selected = false) (rows df) →
  plot_df df averages cols selected = Raise IndexError.
Proof.
  intros Hi Hnone. unfold plot_df. rewrite (student_df_Ok _ _ _ Hi). simpl.
  replace (List.filter _ (rows df)) with (@nil (list cell)); [done|].
  induction Hnone as [|r rs Hr _ IH]; [done|]. simpl. by rewrite Hr.
Qed.

(** ** Instances *)

Lemma load_data_closed_form_witness :
  NoDup ["번호"; "이름"; "성별"; "단원1"] ∧
  fits ["번호"; "이름"; "성별"; "단원1"] [["1"; "철수"; "남"; "90"]; []; ["2"; "영희"]] ∧
  load_data (λ _, Ok ragged_sheet) "1학기" =
    ([], mkDF ["번호"; "이름"; "성별"; "단원1"]
           [[Str "1"; Str "철수"; Str "남"; Str "90"];
            [Str "2"; Str "영희"; Str "None"; Str "None"]]).
Proof.
  assert (H1 : (λ _ : string, Ok ragged_sheet) "1학기" =
               Ok (["번호"; "이름"; "성별"; "단원1"]
                   :: [["1"; "철수"; "남"; "90"]; []; ["2"; "영희"]])) by reflexivity.
  assert (H2 : NoDup ["번호"; "이름"; "성별"; "단원1"]) by compute_done.
  assert (H3 : fits ["번호"; "이름"; "성별"; "단원1"]
                 [["1"; "철수"; "남"; "90"]; []; ["2"; "영희"]]) by (right; reflexivity).
  split; [exact H2|]. split; [exact H3|].
  rewrite (load_data_closed_form _ "1학기" _ _ H1 H2 H3). reflexivity.
Defined.

Lemma load_data_returns_the_sheet_witness :
  load_data (λ _, Ok blank_row_sheet) "1학기" =
    ([], mkDF ["번호"; "이름"; "성별"; "단원1"]
           (map (map Str) [["1"; "철수"; "남"; "90"];
                           [""; ""; ""; ""];
                           ["2"; "영희"; "여"; "x"]])).
Proof.
  apply (load_data_returns_the_sheet (λ _, Ok blank_row_sheet) "1학기").
  - reflexivity.
  - discriminate.
  - compute_done.
  - repeat constructor.
Defined.

Lemma cache_serves_stored_table_witness :
  let first := load_data_cached (λ _, Ok class_sheet) 0 ∅ "1학기" in
  first.1 = load_data (λ _, Ok class_sheet) "1학기" ∧
  load_data_cached (λ _, Ok blank_row_sheet) 299 first.2 "1학기" = (first.1, first.2).
Proof.
  apply (cache_serves_stored_table (λ _, Ok class_sheet) (λ _, Ok blank_row_sheet)
           "1학기" 0 299 ∅).
  - reflexivity.
  - lia.
Defined.

Lemma cache_refetches_after_ttl_witness :
  let first := load_data_cached (λ _, Ok class_sheet) 0 ∅ "1학기" in
  let second := load_data_cached (λ _, Ok blank_row_sheet) 300 first.2 "1학기" in
  second.1 = load_data (λ _, Ok blank_row_sheet) "1학기" ∧
  second.2 !! "1학기" = Some (mkEntry 300 (load_data (λ _, Ok blank_row_sheet) "1학기")).
Proof.
  apply (cache_refetches_after_ttl (λ _, Ok class_sheet) (λ _, Ok blank_row_sheet)
           "1학기" 0 300 ∅).
  - reflexivity.
  - lia.
Defined.

Lemma loaded_columns_split_witness :
  has_expected class_table = true ∧
  columns class_table ≡ₚ expected_columns ++ score_columns class_table ∧
  length (columns class_table) = 3 + length (score_columns class_table).
Proof.
  assert (H : has_expected class_table = true) by reflexivity.
  destruct (loaded_columns_split (λ _, Ok class_sheet) "1학기" H) as (H1 & H2 & _).
  split; [exact H|]. split; [exact H1|exact H2].
Defined.

Lemma normalize_order_irrelevant_witness :
  normalize read_digits class_table ["단원1"; "단원2"] = Ok class_normalized ∧
  normalize read_digits class_table ["단원2"; "단원1"; "단원2"] = Ok class_normalized.
Proof.
  assert (H1 : normalize read_digits class_table ["단원1"; "단원2"]
               = Ok class_normalized) by reflexivity.
  split; [exact H1|].
  apply (normalize_order_irrelevant read_digits class_table class_normalized
           ["단원1"; "단원2"] ["단원2"; "단원1"; "단원2"] H1).
  intros col. rewrite !elem_of_cons, !elem_of_nil. tauto.
Defined.

Lemma normalize_shape_witness :
  normalize read_digits class_table ["단원1"] =
    Ok (mkDF ["번호"; "이름"; "성별"; "단원1"; "단원2"]
          [[Str "1"; Str "철수"; Str "남"; Num 90; Str "x"];
           [Str "2"; Str "영희"; Str "여"; Num 70; Str ""];
           [Str "3"; Str "철수"; Str "남"; Num 50; Str "-"]]) ∧
  length (rows class_table) = 3.
Proof.
  assert (H1 : normalize read_digits class_table ["단원1"] =
    Ok (mkDF ["번호"; "이름"; "성별"; "단원1"; "단원2"]
          [[Str "1"; Str "철수"; Str "남"; Num 90; Str "x"];
           [Str "2"; Str "영희"; Str "여"; Num 70; Str ""];
           [Str "3"; Str "철수"; Str "남"; Num 50; Str "-"]])) by reflexivity.
  split; [exact H1|].
  destruct (normalize_shape read_digits class_table _ ["단원1"] H1) as (_ & H & _).
  rewrite <-H. reflexivity.
Defined.




Lemma empty_name_shows_no_chart_witness :
  let loaded := load_data (λ _, Ok blank_row_sheet) "1학기" in
  rows loaded.2 !! 1 = Some [Str ""; Str ""; Str ""; Str ""] ∧
  ∃ N, script read_digits "1학기" loaded 1 =
         mkPage [st_sidebar_header "학생 선택";
                 st_sidebar_radio [Str "철수"; Str ""; Str "영희"];
                 st_info msg_pick_student]
                (Finished N).
Proof.
  intros loaded.
  assert (H1 : has_expected loaded.2 = true) by reflexivity.
  assert (H2 : rows loaded.2 !! 1 = Some [Str ""; Str ""; Str ""; Str ""])
    by reflexivity.
  assert (H3 : [Str ""; Str ""; Str ""; Str ""] !! position (columns loaded.2) "이름"
               = Some (Str "")) by reflexivity.
  split; [exact H2|].
  exact (proj2 (empty_name_shows_no_chart read_digits (λ _, Ok blank_row_sheet)
                  "1학기" 1 _ H1 H2 H3)).
Defined.

Lemma failed_listing_sticks_witness :
  let first := main read_digits false (Ok unlisted_spreadsheet) 0 no_caches 0 0 in
  first.1 = mkTop [el_worksheets_error (RemoteError "quota exceeded");
                   el_no_worksheets] Halted ∧
  main read_digits true (Ok class_spreadsheet) 299 first.2 0 0 = first.
Proof.
  apply (failed_listing_sticks read_digits unlisted_spreadsheet class_spreadsheet
           (RemoteError "quota exceeded") 0 299 no_caches false true 0 0 0 0).
  - reflexivity.
  - reflexivity.
  - lia.
Defined.

Lemma refresh_shows_current_data_witness :
  button_reached (Ok class_spreadsheet) 10 no_caches = true ∧
  (main read_digits true (Ok class_spreadsheet) 10 no_caches 1 0).2 =
    mkCaches (Some (10, ([], ["1학기"; "2학기"])))
      {[ "2학기" := mkEntry 10 (load_data (λ _, Ok class_sheet) "2학기") ]}.
Proof.
  assert (H : button_reached (Ok class_spreadsheet) 10 no_caches = true)
    by reflexivity.
  split; [exact H|].
  rewrite (refresh_shows_current_data read_digits class_spreadsheet ["1학기"; "2학기"]
             10 no_caches 1 0 eq_refl ltac:(discriminate) H).
  reflexivity.
Defined.

Lemma plot_df_without_match_witness :
  positions "이름" (columns class_normalized) = [1] ∧
  plot_df class_normalized [] ["단원1"; "단원2"] (Str "민수") = Raise IndexError.
Proof.
  assert (H1 : positions "이름" (columns class_normalized) = [1]) by reflexivity.
  split; [exact H1|].
  apply (plot_df_without_match class_normalized [] _ (Str "민수") 1 H1).
  repeat constructor.
Defined.
